(** * Sign-In with Ethereum extension: session, nonce and verify routes,
      and the client hook's auto-logout

    A shallow embedding of the TypeScript sources:
    - [utils/siwe.ts]               -> module [Siwe]
    - [app/api/siwe/nonce/route.ts] -> module [NonceRoute]
    - [app/api/siwe/session/route.ts] -> module [SessionRoute]
    - [app/api/siwe/verify/route.ts]  -> module [VerifyRoute]
    - [hooks/useSiwe.ts]            -> module [UseSiwe]

    Handlers are pure functions from the request, the ambient effects of the
    request (cookie store faults, clock reads) and the sealed cookie's
    content to a response and the cookie's new content. *)

From Stdlib Require Import ZArith String Ascii Bool List Lia DecimalString.
From stdpp Require Import base option gmap strings.

Local Open Scope Z_scope.
Local Open Scope string_scope.

(** ** JavaScript prelude

    A [string] stands for a JavaScript string, one [ascii] per code unit, so
    [String.length] is [.length]; [option] adds [undefined]. *)

(** A computation that returns or throws. *)
Inductive Exc (A : Type) : Type :=
| Returns (a : A)
| Throws (message : string).
Arguments Returns {A} a.
Arguments Throws {A} message.

Module Js.

(** The JSON values a request body field can hold; [JsUndefined] is an
    absent field, [JsObject] stands for arrays and objects. *)
Inductive Value : Type :=
| JsUndefined
| JsNull
| JsBool (b : bool)
| JsNumber (z : Z)
| JsString (s : string)
| JsObject.

(** [!!s] for an optional string: [undefined] and [""] are falsy. *)
Definition truthyString (s : option string) : bool :=
  match s with
  | Some s => negb (String.eqb s "")
  | None => false
  end.

(** The string behind a truthy optional string, as in
    [if (!s) return ...; use(s)]. *)
Definition truthy (s : option string) : option string :=
  match s with
  | Some s => if String.eqb s "" then None else Some s
  | None => None
  end.

(** [!!n] for an optional integer: [undefined] and [0] are falsy. *)
Definition truthyNumber (n : option Z) : bool :=
  match n with
  | Some n => negb (Z.eqb n 0)
  | None => false
  end.

(** [a !== b] where [a] may be [undefined] and [b] is a string. *)
Definition strictNe (a : option string) (b : string) : bool :=
  match a with
  | Some a => negb (String.eqb a b)
  | None => true
  end.

(** [`${a}`] for an optional string. *)
Definition template (a : option string) : string :=
  match a with
  | Some a => a
  | None => "undefined"
  end.

(** [v && typeof v === "string"]: the string, when [v] is a non-empty one. *)
Definition nonEmptyString (v : Value) : option string :=
  match v with
  | JsString s => if String.eqb s "" then None else Some s
  | _ => None
  end.

Definition lowerAscii (c : ascii) : ascii :=
  let n := nat_of_ascii c in
  if (Nat.leb 65 n && Nat.leb n 90)%bool then ascii_of_nat (n + 32) else c.

(** [s.toLowerCase()] on the ASCII range (addresses are [0x] hex strings). *)
Fixpoint toLowerCase (s : string) : string :=
  match s with
  | EmptyString => EmptyString
  | String c rest => String (lowerAscii c) (toLowerCase rest)
  end.

(** [`${n}`] for an integer [n] (below 1e21 in size, where JavaScript still
    prints plain decimal digits). *)
Definition numberToString (n : Z) : string :=
  NilZero.string_of_int (Z.to_int n).

(** [s.includes(sub)] *)
Fixpoint includes (sub s : string) : bool :=
  String.prefix sub s
  || match s with
     | EmptyString => false
     | String _ rest => includes sub rest
     end.

(** [n || null] for an optional integer. *)
Definition truthyInt (n : option Z) : option Z :=
  match n with
  | Some n => if Z.eqb n 0 then None else Some n
  | None => None
  end.

(** [parts.join(sep)] *)
Definition join (sep : string) (parts : list string) : string :=
  String.concat sep parts.

End Js.

(** ** utils/siwe.config.ts *)

Module SiweConfig.

Record Config : Type := {
  sessionDurationDays : Z;
  messageExpirationMinutes : Z;
  statement : string;
}.

Definition siweConfig : Config :=
  {| sessionDurationDays := 7;
     messageExpirationMinutes := 10;
     statement := "Sign in with Ethereum to the app." |}.

End SiweConfig.

(** ** utils/siwe.ts *)

Module Siwe.

(** [interface SiweSessionData] *)
Record SiweSessionData : Type := {
  address : option string;
  chainId : option Z;
  nonce : option string;
  isLoggedIn : bool;
  signedInAt : option Z;
}.

(** [defaultSession = { isLoggedIn: false }]; also the content iron-session
    hands out when the request carries no (valid) cookie, whose absent
    [isLoggedIn] is falsy. *)
Definition defaultSession : SiweSessionData :=
  {| address := None; chainId := None; nonce := None;
     isLoggedIn := false; signedInAt := None |}.

(** [process.env] as far as the module reads it. *)
Record ProcessEnv : Type := {
  IRON_SESSION_SECRET : option string;
  NODE_ENV : option string;
}.

(** [process.env.NODE_ENV === "production"] *)
Definition isProduction (env : ProcessEnv) : bool :=
  negb (Js.strictNe (NODE_ENV env) "production").

Definition secretTooShort : string :=
  "IRON_SESSION_SECRET must be at least 32 characters long. " ++
  "Generate a secure secret: `openssl rand -base64 32`".

Definition secretRequired : string :=
  "IRON_SESSION_SECRET environment variable is required in production. " ++
  "Generate a secure 32+ character secret: `openssl rand -base64 32`".

Definition devFallback : string :=
  "complex_password_at_least_32_characters_long_for_dev".

Definition getSessionPassword (env : ProcessEnv) : Exc string :=
  match Js.truthy (IRON_SESSION_SECRET env) with
  | Some secret =>
      if Nat.ltb (String.length secret) 32 then Throws secretTooShort
      else Returns secret
  | None =>
      if isProduction env then Throws secretRequired
      else Returns devFallback
  end.

(** [sessionOptions], as far as the claims need it: a module-level constant
    whose initialiser calls [getSessionPassword()], so importing the module
    throws when that call throws, before any route handler exists. *)
Record SessionOptions : Type := {
  password : string;
  cookieName : string;
  secure : bool;
}.

Definition sessionOptions (env : ProcessEnv) : Exc SessionOptions :=
  match getSessionPassword env with
  | Throws e => Throws e
  | Returns pw =>
      Returns {| password := pw;
                 cookieName := "siwe-session";
                 secure := isProduction env |}
  end.

(** [isAuthenticated(session)] *)
Definition isAuthenticated (session : SiweSessionData) : bool :=
  isLoggedIn session && Js.truthyString (address session)
  && Js.truthyNumber (chainId session).

(** [sessionOptions.cookieOptions.maxAge], in seconds. *)
Definition cookieMaxAge : Z :=
  60 * 60 * 24 * SiweConfig.sessionDurationDays SiweConfig.siweConfig.

Definition SESSION_MAX_AGE_MS : Z :=
  60 * 60 * 24 * SiweConfig.sessionDurationDays SiweConfig.siweConfig * 1000.

(** [getTimeAgo(timestamp)]; [now] is the [Date.now()] it reads.  Timestamps
    are integral milliseconds, so [Math.floor(a / b)] is [a / b] on [Z]. *)
Definition getTimeAgo (now timestamp : Z) : string :=
  let seconds := (now - timestamp) / 1000 in
  if Z.ltb seconds 60 then "just now"
  else if Z.ltb seconds 3600 then
    Js.numberToString (seconds / 60) ++ " min ago"
  else if Z.ltb seconds 86400 then
    Js.numberToString (seconds / 3600) ++ " hour"
      ++ (if Z.gtb (seconds / 3600) 1 then "s" else "") ++ " ago"
  else
    Js.numberToString (seconds / 86400) ++ " day"
      ++ (if Z.gtb (seconds / 86400) 1 then "s" else "") ++ " ago".

(** The [parts] array of [getSessionTimeRemaining] for a positive
    [remainingMs]; [%] is JavaScript's remainder, [Z.rem]. *)
Definition remainingParts (remainingMs : Z) : list string :=
  let days := remainingMs / (1000 * 60 * 60 * 24) in
  let hours := Z.rem remainingMs (1000 * 60 * 60 * 24) / (1000 * 60 * 60) in
  let minutes := Z.rem remainingMs (1000 * 60 * 60) / (1000 * 60) in
  let parts : list string := [] in
  let parts :=
    if Z.gtb days 0 then (parts ++ [(Js.numberToString days ++ "d")%string])%list
    else parts in
  let parts :=
    if Z.gtb hours 0 then (parts ++ [(Js.numberToString hours ++ "h")%string])%list
    else parts in
  let parts :=
    if Z.gtb minutes 0 || Nat.eqb (List.length parts) 0
    then (parts ++ [(Js.numberToString minutes ++ "m")%string])%list
    else parts in
  parts.

(** [getSessionTimeRemaining(signedInAt)]; [now] is its [Date.now()]. *)
Definition getSessionTimeRemaining (now signedInAt : Z) : string :=
  let expiresAt := signedInAt + SESSION_MAX_AGE_MS in
  let remainingMs := expiresAt - now in
  if Z.leb remainingMs 0 then "Expired"
  else Js.join " " (remainingParts remainingMs).

End Siwe.

(** ** The viem interface the routes program against

    viem is a dependency, not part of the repository; the routes see it
    through these types and the two functions of [Viem.SiweApi]. *)

Module Viem.

(** The chains the verify route imports from [viem/chains]. *)
Inductive Chain : Type :=
| mainnet | polygon | optimism | arbitrum | base
| gnosis | scroll | zkSync | sepolia | hardhat.

(** [chain.id]; the source states [hardhat.id = 31337], the others are the
    networks' registered chain ids. *)
Definition id (c : Chain) : Z :=
  match c with
  | mainnet => 1
  | polygon => 137
  | optimism => 10
  | arbitrum => 42161
  | base => 8453
  | gnosis => 100
  | scroll => 534352
  | zkSync => 324
  | sepolia => 11155111
  | hardhat => 31337
  end.

(** [createPublicClient({ chain, transport: http() })]: the per-chain
    read-only client used as verification oracle. *)
Record PublicClient : Type := { chain : Chain }.

Definition createPublicClient (c : Chain) : PublicClient := {| chain := c |}.

(** [ReturnType<typeof parseSiweMessage>]: every field optional; times are
    milliseconds since the epoch. *)
Record SiweMessage : Type := {
  address : option string;
  chainId : option Z;
  domain : option string;
  nonce : option string;
  issuedAt : option Z;
  expirationTime : option Z;
  notBefore : option Z;
}.

(** The parameters the route passes to [verifySiweMessage]; [time] is the
    clock read that viem's [time = new Date()] default performs. *)
Record VerifyParameters : Type := {
  message : string;
  signature : string;
  expectedDomain : string;
  expectedNonce : string;
  time : Z;
}.

Class SiweApi : Type := {
  parseSiweMessage : string -> Exc SiweMessage;
  verifySiweMessage : PublicClient -> VerifyParameters -> Exc bool;
}.

(** Modelled from the spec: [verifySiweMessage] of viem, which is not under
    src/, following section 4.2 steps 4 to 8 of the spec and the list of
    checks in the verify route's header comment: exact domain match, exact
    nonce match, [now >= expirationTime] rejects, [now < notBefore] rejects,
    then the signature oracle is asked about the claimed address on the
    given client.  The signature oracle [verifyHash] stays a parameter. *)
Definition validateSiweMessage (m : SiweMessage) (p : VerifyParameters) : bool :=
  negb (Js.strictNe (domain m) (expectedDomain p))
  && negb (Js.strictNe (nonce m) (expectedNonce p))
  && match expirationTime m with
     | Some e => negb (Z.leb e (time p))
     | None => true
     end
  && match notBefore m with
     | Some nb => negb (Z.ltb (time p) nb)
     | None => true
     end.

Definition specVerifySiweMessage
    (parse : string -> Exc SiweMessage)
    (verifyHash : PublicClient -> string -> string -> string -> Exc bool)
    (client : PublicClient) (p : VerifyParameters) : Exc bool :=
  match parse (message p) with
  | Throws e => Throws e
  | Returns m =>
      match address m with
      | None => Returns false
      | Some a =>
          if validateSiweMessage m p
          then verifyHash client a (message p) (signature p)
          else Returns false
      end
  end.

Definition specSiweApi
    (parse : string -> Exc SiweMessage)
    (verifyHash : PublicClient -> string -> string -> string -> Exc bool)
    : SiweApi :=
  {| parseSiweMessage := parse;
     verifySiweMessage := specVerifySiweMessage parse verifyHash |}.

End Viem.

(** ** The iron-session store

    The session lives in a sealed cookie held by the client.  A handler
    loads a copy, mutates it in memory, and only [save] or [destroy] write
    the cookie.  Each of the three can fail; [Faults] says which do during
    one request. *)

Module IronSession.

Import Siwe.

Record Faults : Type := {
  loadFails : bool;
  saveFails : bool;
}.

Definition noFaults : Faults := {| loadFails := false; saveFails := false |}.

(** [await getIronSession(await cookies(), sessionOptions)] *)
Definition getIronSession (io : Faults) (cookie : SiweSessionData)
    : Exc SiweSessionData :=
  if loadFails io then Throws "getIronSession failed" else Returns cookie.

(** [await session.save()]: the cookie's new content. *)
Definition save (io : Faults) (session cookie : SiweSessionData)
    : Exc SiweSessionData :=
  if saveFails io then Throws "session.save failed" else Returns session.

(** [session.destroy()]: the cookie is dropped, so the next load sees the
    empty session. *)
Definition destroy (io : Faults) (cookie : SiweSessionData)
    : Exc SiweSessionData :=
  if saveFails io then Throws "session.destroy failed"
  else Returns defaultSession.

End IronSession.

(** ** app/api/siwe/nonce/route.ts *)

Module NonceRoute.

Import Siwe IronSession.

Inductive Response : Type :=
| Nonce (nonce : string)            (* 200 { nonce } *)
| Failure (status : Z) (error : string).

(** [generated] is the value [generateSiweNonce()] returns in this call. *)
Definition GET (io : Faults) (generated : string) (cookie : SiweSessionData)
    : Response * SiweSessionData :=
  match getIronSession io cookie with
  | Throws _ => (Failure 500 "Failed to generate nonce", cookie)
  | Returns session =>
      let session :=
        {| address := address session;
           chainId := chainId session;
           nonce := Some generated;
           isLoggedIn := false;
           signedInAt := signedInAt session |} in
      match save io session cookie with
      | Throws _ => (Failure 500 "Failed to generate nonce", cookie)
      | Returns cookie' => (Nonce generated, cookie')
      end
  end.

End NonceRoute.

(** ** app/api/siwe/session/route.ts *)

Module SessionRoute.

Import Siwe IronSession.

(** The JSON body of the GET response: a session-shaped object. *)
Definition GET (io : Faults) (cookie : SiweSessionData) : SiweSessionData :=
  match getIronSession io cookie with
  | Throws _ => defaultSession
  | Returns session =>
      if isLoggedIn session && Js.truthyString (address session) then
        {| address := address session;
           chainId := chainId session;
           nonce := None;
           isLoggedIn := true;
           signedInAt := signedInAt session |}
      else defaultSession
  end.

Inductive Response : Type :=
| Ok                                 (* 200 { ok: true } *)
| Failure (status : Z) (error : string).

Definition DELETE (io : Faults) (cookie : SiweSessionData)
    : Response * SiweSessionData :=
  match getIronSession io cookie with
  | Throws _ => (Failure 500 "Failed to logout", cookie)
  | Returns session =>
      match destroy io cookie with
      | Throws _ => (Failure 500 "Failed to logout", cookie)
      | Returns cookie' => (Ok, cookie')
      end
  end.

End SessionRoute.

(** ** app/api/siwe/verify/route.ts *)

Module VerifyRoute.

Import Siwe IronSession.

(** [SUPPORTED_CHAINS: Record<number, Chain>], keys in source order. *)
Definition SUPPORTED_CHAINS : gmap Z Viem.Chain :=
  foldl (fun m c => <[Viem.id c := c]> m) ∅
    [Viem.mainnet; Viem.polygon; Viem.optimism; Viem.arbitrum; Viem.base;
     Viem.gnosis; Viem.scroll; Viem.zkSync; Viem.sepolia; Viem.hardhat].

Definition getPublicClientForChain (chainId : option Z) : Viem.PublicClient :=
  let chain :=
    if Js.truthyNumber chainId
    then chainId ≫= (fun n => SUPPORTED_CHAINS !! n)
    else Some Viem.mainnet in
  Viem.createPublicClient (default Viem.mainnet chain).

(** [now] is the [new Date()] this function reads on entry. *)
Definition getVerificationErrorMessage (now : Z)
    (parsedMessage : Viem.SiweMessage) (expectedDomain expectedNonce : string)
    : string :=
  if Js.strictNe (Viem.domain parsedMessage) expectedDomain then
    "Domain mismatch. Expected: " ++ expectedDomain ++ ", Got: "
      ++ Js.template (Viem.domain parsedMessage)
  else if Js.strictNe (Viem.nonce parsedMessage) expectedNonce then
    "Nonce mismatch. Please request a new nonce and try again."
  else if match Viem.expirationTime parsedMessage with
          | Some e => Z.ltb e now
          | None => false
          end then
    "Message has expired. Please sign a new message."
  else if match Viem.notBefore parsedMessage with
          | Some nb => Z.gtb nb now
          | None => false
          end then
    "Message is not yet valid. Please wait and try again."
  else if negb (Js.truthyString (Viem.address parsedMessage)) then
    "Message is missing required field: address"
  else if negb (Js.truthyNumber (Viem.chainId parsedMessage)) then
    "Message is missing required field: chainId"
  else
    "Invalid signature. The message was not signed by the claimed address.".

(** [{ message, signature } = await request.json()], and the Host header.
    [json] throws on a body that is not JSON or cannot be destructured. *)
Record Body : Type := {
  message : Js.Value;
  signature : Js.Value;
}.

Record NextRequest : Type := {
  json : Exc Body;
  host : option string;
}.

(** The clock reads of one request, in program order: inside
    [verifySiweMessage], on entry of [getVerificationErrorMessage], and
    [Date.now()] of step 6.  A run performs the first and one of the others. *)
Record Clock : Type := {
  verifyTime : Z;
  diagnoseTime : Z;
  signInTime : Z;
}.

Inductive Response : Type :=
| Success (address : option string) (chainId : option Z) (signedInAt : Z)
| Failure (status : Z) (error : string).

Definition missingMessage : Response :=
  Failure 400 "Missing or invalid 'message' field. Expected a string.".
Definition missingSignature : Response :=
  Failure 400 "Missing or invalid 'signature' field. Expected a hex string.".
Definition noNonce : Response :=
  Failure 400 "No nonce found in session. Please call GET /api/siwe/nonce first.".
Definition invalidFormat : Response :=
  Failure 400 "Invalid SIWE message format. Could not parse EIP-4361 message.".
Definition noDomain : Response :=
  Failure 500 "Could not determine server domain for verification.".
Definition unexpected : Response :=
  Failure 500 "An unexpected error occurred during verification. Please try again.".

Section Handler.

Context `{api : Viem.SiweApi}.

(** Steps 3 to 6, once the body is validated and the nonce retrieved. *)
Definition verifyAndPromote (io : Faults) (clock : Clock)
    (request : NextRequest) (message signature storedNonce : string)
    (cookie : SiweSessionData) : Response * SiweSessionData :=
  match Viem.parseSiweMessage message with
  | Throws _ => (invalidFormat, cookie)
  | Returns parsedMessage =>
      match Js.truthy (host request) with
      | None => (noDomain, cookie)
      | Some expectedDomain =>
          let publicClient :=
            getPublicClientForChain (Viem.chainId parsedMessage) in
          match Viem.verifySiweMessage publicClient
                  {| Viem.message := message;
                     Viem.signature := signature;
                     Viem.expectedDomain := expectedDomain;
                     Viem.expectedNonce := storedNonce;
                     Viem.time := verifyTime clock |} with
          | Returns true =>
              let signedInAt := signInTime clock in
              let session :=
                {| address := Viem.address parsedMessage;
                   chainId := Viem.chainId parsedMessage;
                   nonce := None;
                   isLoggedIn := true;
                   signedInAt := Some signedInAt |} in
              match save io session cookie with
              | Throws _ => (unexpected, cookie)
              | Returns cookie' =>
                  (Success (Viem.address parsedMessage)
                           (Viem.chainId parsedMessage) signedInAt,
                   cookie')
              end
          | Returns false | Throws _ =>
              (Failure 400
                 (getVerificationErrorMessage (diagnoseTime clock)
                    parsedMessage expectedDomain storedNonce),
               cookie)
          end
      end
  end.

Definition POST (io : Faults) (clock : Clock) (request : NextRequest)
    (cookie : SiweSessionData) : Response * SiweSessionData :=
  match json request with
  | Throws _ => (unexpected, cookie)
  | Returns body =>
      match Js.nonEmptyString (message body) with
      | None => (missingMessage, cookie)
      | Some message =>
          match Js.nonEmptyString (signature body) with
          | None => (missingSignature, cookie)
          | Some signature =>
              match getIronSession io cookie with
              | Throws _ => (unexpected, cookie)
              | Returns session =>
                  match Js.truthy (nonce session) with
                  | None => (noNonce, cookie)
                  | Some storedNonce =>
                      verifyAndPromote io clock request message signature
                        storedNonce cookie
                  end
              end
          end
      end
  end.

End Handler.

End VerifyRoute.

(** ** The server as a transition system over the cookie's content *)

Module Server.

Import Siwe IronSession.

Inductive Call : Type :=
| RequestNonce (io : Faults) (generated : string)
| Verify (io : Faults) (clock : VerifyRoute.Clock)
         (request : VerifyRoute.NextRequest)
| CheckSession (io : Faults)
| Destroy (io : Faults).

Definition issuesNonce (call : Call) : bool :=
  match call with
  | RequestNonce _ _ => true
  | _ => false
  end.

Section Step.

Context `{api : Viem.SiweApi}.

Definition step (call : Call) (cookie : SiweSessionData) : SiweSessionData :=
  match call with
  | RequestNonce io generated => snd (NonceRoute.GET io generated cookie)
  | Verify io clock request => snd (VerifyRoute.POST io clock request cookie)
  | CheckSession _ => cookie
  | Destroy io => snd (SessionRoute.DELETE io cookie)
  end.

(** The contents a cookie can have: the empty session of a first visit,
    and whatever the routes write from there. *)
Inductive reachable : SiweSessionData -> Prop :=
| reachable_first_visit : reachable defaultSession
| reachable_step call cookie :
    reachable cookie -> reachable (step call cookie).

Definition run (calls : list Call) (cookie : SiweSessionData)
    : SiweSessionData :=
  foldl (fun c call => step call c) cookie calls.

End Step.

End Server.

(** ** hooks/useSiwe.ts: state, signOut and the auto-logout effects *)

Module UseSiwe.

(** [interface SiweState] *)
Record SiweState : Type := {
  address : option string;
  chainId : option Z;
  isSignedIn : bool;
  isLoading : bool;
  error : option string;
  siweMessage : option string;
  signedInAt : option Z;
}.

(** The initial [useState] value. *)
Definition initialState : SiweState :=
  {| address := None; chainId := None; isSignedIn := false;
     isLoading := true; error := None; siweMessage := None;
     signedInAt := None |}.

(** The object [signOut] writes after a confirmed destruction. *)
Definition signedOutState : SiweState :=
  {| address := None; chainId := None; isSignedIn := false;
     isLoading := false; error := None; siweMessage := None;
     signedInAt := None |}.

(** What [useAccount()] reports in one render. *)
Record Account : Type := {
  connectedAddress : option string;
  isConnected : bool;
}.

(** A value caught by [catch (error: unknown)]. *)
Inductive Thrown : Type :=
| ErrorObject (message : string)
| ThrownString (s : string)
| ThrownOther.

Definition getErrorMessage (error : Thrown) (fallback : string) : string :=
  match error with
  | ErrorObject message => message
  | ThrownString s => s
  | ThrownOther => fallback
  end.

(** How [fetch("/api/siwe/session", { method: "DELETE" })] ends: with a
    response whose [ok] flag is given, or by rejecting. *)
Inductive FetchOutcome : Type :=
| Responded (ok : bool)
| Rejected (error : Thrown).

Definition setLoading (prev : SiweState) : SiweState :=
  {| address := address prev; chainId := chainId prev;
     isSignedIn := isSignedIn prev; isLoading := true; error := None;
     siweMessage := siweMessage prev; signedInAt := signedInAt prev |}.

Definition setError (errorMessage : string) (prev : SiweState) : SiweState :=
  {| address := address prev; chainId := chainId prev;
     isSignedIn := isSignedIn prev; isLoading := false;
     error := Some errorMessage;
     siweMessage := siweMessage prev; signedInAt := signedInAt prev |}.

(** [signOut()], run to completion against the outcome of its DELETE. *)
Definition signOut (outcome : FetchOutcome) (state : SiweState) : SiweState :=
  let state := setLoading state in
  match outcome with
  | Responded true => signedOutState
  | Responded false =>
      setError (getErrorMessage (ErrorObject "Failed to sign out")
                  "Failed to sign out") state
  | Rejected error =>
      setError (getErrorMessage error "Failed to sign out") state
  end.

(** The effect that maintains [hasSeenWalletConnected.current]. *)
Definition trackWalletConnected (account : Account) (hasSeen : bool) : bool :=
  if isConnected account then true else hasSeen.

(** Why the auto-logout effect called [signOut()]. *)
Inductive Trigger : Type :=
| AddressChanged
| WalletDisconnected.

(** The auto-logout effect: the [signOut()] calls it makes, in order. *)
Definition autoLogout (account : Account) (state : SiweState)
    (hasSeen : bool) : list Trigger :=
  (if isSignedIn state then
     match Js.truthy (connectedAddress account), Js.truthy (address state) with
     | Some connected, Some bound =>
         if negb (String.eqb (Js.toLowerCase connected) (Js.toLowerCase bound))
         then [AddressChanged] else []
     | _, _ => []
     end
   else [])
  ++
  (if isSignedIn state && negb (isConnected account) && hasSeen
   then [WalletDisconnected] else []).

(** One reconciliation cycle: both effects run in declaration order on the
    rendered [account] and [state], and every [signOut()] the second one
    started runs to completion; [deleted] gives the outcome of the DELETE
    each call issues. *)
Definition reconcile (deleted : Trigger -> FetchOutcome) (account : Account)
    (st : SiweState * bool) : SiweState * bool :=
  let hasSeen := trackWalletConnected account (snd st) in
  let calls := autoLogout account (fst st) hasSeen in
  (foldl (fun state trigger => signOut (deleted trigger) state) (fst st) calls,
   hasSeen).

(** The ref after the renders of [history], oldest first, starting from
    [useRef(false)]. *)
Definition hasSeenAfter (history : list Account) : bool :=
  foldl (fun seen account => trackWalletConnected account seen) false history.

(** An awaited promise. *)
Inductive Promise (A : Type) : Type :=
| Resolves (a : A)
| Rejects (error : Thrown).
Arguments Resolves {A} a.
Arguments Rejects {A} error.

(** A [fetch] response as the hook reads it: [response.ok] and
    [await response.json()]. *)
Record JsonResponse (A : Type) : Type := {
  ok : bool;
  json : Promise A;
}.
Arguments ok {A} _.
Arguments json {A} _.

(** [checkSession()], given how its fetch of the session route and the
    [response.json()] after it end; the data has the session's shape. *)
Definition checkSession (fetched : Promise Siwe.SiweSessionData)
    (prev : SiweState) : SiweState :=
  match fetched with
  | Resolves data =>
      {| address := Js.truthy (Siwe.address data);
         chainId := Js.truthyInt (Siwe.chainId data);
         isSignedIn := Siwe.isLoggedIn data;
         isLoading := false;
         error := None;
         siweMessage := siweMessage prev;
         signedInAt := Js.truthyInt (Siwe.signedInAt data) |}
  | Rejects _ =>
      {| address := address prev; chainId := chainId prev;
         isSignedIn := false; isLoading := false;
         error := Some "Failed to check session status";
         siweMessage := siweMessage prev; signedInAt := signedInAt prev |}
  end.

(** [window.location] *)
Record Location : Type := {
  locationHost : string;
  locationOrigin : string;
}.

(** The object [signIn] passes to [createSiweMessage]. *)
Record MessageFields : Type := {
  fieldAddress : string;
  fieldChainId : Z;
  fieldDomain : string;
  fieldNonce : option string;
  fieldUri : string;
  fieldVersion : string;
  fieldStatement : string;
  fieldIssuedAt : Z;
  fieldExpirationTime : Z;
}.

(** The JSON bodies of the nonce and verify routes as [signIn] reads them. *)
Record NonceData : Type := { dataNonce : option string }.

Record VerifyData : Type := {
  dataOk : bool;
  dataError : option string;
  dataAddress : option string;
  dataChainId : option Z;
  dataSignedInAt : option Z;
}.

(** What one [signIn()] call meets: the wallet hooks of the render, the page
    location, the clock, and how each awaited call ends. *)
Record SignInEnv : Type := {
  account : Account;
  walletChainId : Z;
  location : Location;
  fetchNonce : Promise (JsonResponse NonceData);
  now : Z;
  createSiweMessage : MessageFields -> Promise string;
  signMessageAsync : string -> Promise string;
  fetchVerify : string -> string -> Promise (JsonResponse VerifyData);
}.

(** The outward calls of a run, in order. *)
Inductive Effect : Type :=
| FetchNonce
| SignMessage (message : string)
| PostVerify (message signature : string).

Inductive SignInResult : Type :=
| SignedIn (address : option string)      (* { ok: true, address } *)
| NotSignedIn (error : string).           (* { ok: false, error } *)

Record SignInRun : Type := {
  finalState : SiweState;
  result : SignInResult;
  effects : list Effect;
}.

Definition setSiweMessage (message : string) (prev : SiweState) : SiweState :=
  {| address := address prev; chainId := chainId prev;
     isSignedIn := isSignedIn prev; isLoading := isLoading prev;
     error := error prev; siweMessage := Some message;
     signedInAt := signedInAt prev |}.

Definition setSignedIn (data : VerifyData) (prev : SiweState) : SiweState :=
  {| address := dataAddress data; chainId := dataChainId data;
     isSignedIn := true; isLoading := false; error := None;
     siweMessage := siweMessage prev; signedInAt := dataSignedInAt data |}.

(** A run that ends by writing [errorMessage] and returning it. *)
Definition failWith (errorMessage : string) (done : list Effect)
    (state : SiweState) : SignInRun :=
  {| finalState := setError errorMessage state;
     result := NotSignedIn errorMessage;
     effects := done |}.

(** The outer [catch (error: unknown)] of [signIn]. *)
Definition caught (error : Thrown) (done : list Effect) (state : SiweState)
    : SignInRun :=
  failWith (getErrorMessage error "An unexpected error occurred") done state.

(** The [catch (signError)] around [signMessageAsync]. *)
Definition signErrorMessage (signError : Thrown) : string :=
  let isRejection :=
    match signError with
    | ErrorObject message => Js.includes "rejected" (Js.toLowerCase message)
    | _ => false
    end in
  if isRejection then "Signature request was rejected"
  else "Failed to sign message".

Definition messageFields (env : SignInEnv) (connectedAddress : string)
    (nonce : option string) : MessageFields :=
  let expirationTime :=
    now env
    + SiweConfig.messageExpirationMinutes SiweConfig.siweConfig * 60 * 1000 in
  {| fieldAddress := connectedAddress;
     fieldChainId := walletChainId env;
     fieldDomain := locationHost (location env);
     fieldNonce := nonce;
     fieldUri := locationOrigin (location env);
     fieldVersion := "1";
     fieldStatement := SiweConfig.statement SiweConfig.siweConfig;
     fieldIssuedAt := now env;
     fieldExpirationTime := expirationTime |}.

(** Steps 3 to 5 of [signIn], once the message is created. *)
Definition signAndVerify (env : SignInEnv) (message : string)
    (state : SiweState) : SignInRun :=
  let state := setSiweMessage message state in
  match signMessageAsync env message with
  | Rejects signError =>
      failWith (signErrorMessage signError)
        [FetchNonce; SignMessage message] state
  | Resolves signature =>
      let done :=
        [FetchNonce; SignMessage message; PostVerify message signature] in
      match fetchVerify env message signature with
      | Rejects error => caught error done state
      | Resolves verifyResponse =>
          match json verifyResponse with
          | Rejects error => caught error done state
          | Resolves verifyData =>
              if negb (ok verifyResponse) || negb (dataOk verifyData) then
                failWith
                  (default "Verification failed"
                     (Js.truthy (dataError verifyData)))
                  done state
              else
                {| finalState := setSignedIn verifyData state;
                   result := SignedIn (dataAddress verifyData);
                   effects := done |}
          end
      end
  end.

(** [signIn()], run to completion. *)
Definition signIn (env : SignInEnv) (state : SiweState) : SignInRun :=
  match isConnected (account env),
        Js.truthy (connectedAddress (account env)) with
  | true, Some connectedAddress =>
      let state := setLoading state in
      match fetchNonce env with
      | Rejects error => caught error [FetchNonce] state
      | Resolves nonceResponse =>
          if negb (ok nonceResponse) then
            caught (ErrorObject "Failed to fetch nonce") [FetchNonce] state
          else
            match json nonceResponse with
            | Rejects error => caught error [FetchNonce] state
            | Resolves data =>
                match createSiweMessage env
                        (messageFields env connectedAddress (dataNonce data))
                with
                | Rejects error => caught error [FetchNonce] state
                | Resolves message => signAndVerify env message state
                end
            end
      end
  | _, _ =>
      {| finalState :=
           {| address := address state; chainId := chainId state;
              isSignedIn := isSignedIn state; isLoading := isLoading state;
              error := Some "Please connect your wallet first";
              siweMessage := siweMessage state;
              signedInAt := signedInAt state |};
         result := NotSignedIn "Wallet not connected";
         effects := [] |}
  end.

End UseSiwe.

(** ** app/siwe/page.tsx: what the demo page decides to show *)

Module SiwePage.

Import UseSiwe.

(** The widgets of the action row. *)
Inductive Action : Type :=
| ConnectButton
| SignInButton (disabled : bool)
| SignedInPill (address : string) (signOutDisabled : bool).

Definition actionArea (isConnected : bool) (state : SiweState) : list Action :=
  (if negb isConnected && negb (isSignedIn state) then [ConnectButton] else [])
  ++ (if isConnected && negb (isSignedIn state)
      then [SignInButton (isLoading state)] else [])
  ++ (if isSignedIn state then
        match Js.truthy (address state) with
        | Some a => [SignedInPill a (isLoading state)]
        | None => []
        end
      else []).

Inductive Status : Type :=
| ErrorAlert (error : string)
| Authenticated
| WaitingForAuthentication
| WaitingForWallet.

Definition statusNotification (isConnected : bool) (state : SiweState)
    : Status :=
  match Js.truthy (error state) with
  | Some e => ErrorAlert e
  | None =>
      if isSignedIn state then Authenticated
      else if isConnected then WaitingForAuthentication
      else WaitingForWallet
  end.

(** [isSignedIn && address && chainId && signedInAt]: the session details
    and the demo secret are rendered, otherwise the locked placeholder. *)
Definition showsProtectedContent (state : SiweState) : bool :=
  isSignedIn state && Js.truthyString (address state)
  && Js.truthyNumber (chainId state) && Js.truthyNumber (signedInAt state).

(** [new Date(signedInAt + 7 * 24 * 60 * 60 * 1000)]: the expiry instant the
    session details print next to the remaining time. *)
Definition expiryShown (signedInAt : Z) : Z :=
  signedInAt + 7 * 24 * 60 * 60 * 1000.

End SiwePage.

(** ** The hook against the routes

    What the browser's [fetch] makes of a route's [NextResponse.json(body,
    { status })]: [response.ok] is a 2xx status, [response.json()] the body. *)

Module Wire.

Import UseSiwe.

Definition statusOk (status : Z) : bool :=
  Z.leb 200 status && Z.leb status 299.

Definition nonceResponse (r : NonceRoute.Response) : JsonResponse NonceData :=
  match r with
  | NonceRoute.Nonce n =>
      {| ok := true; json := Resolves {| dataNonce := Some n |} |}
  | NonceRoute.Failure status _ =>
      {| ok := statusOk status; json := Resolves {| dataNonce := None |} |}
  end.

Definition verifyResponse (r : VerifyRoute.Response)
    : JsonResponse VerifyData :=
  match r with
  | VerifyRoute.Success a c t =>
      {| ok := true;
         json := Resolves {| dataOk := true; dataError := None;
                             dataAddress := a; dataChainId := c;
                             dataSignedInAt := Some t |} |}
  | VerifyRoute.Failure status e =>
      {| ok := statusOk status;
         json := Resolves {| dataOk := false; dataError := Some e;
                             dataAddress := None; dataChainId := None;
                             dataSignedInAt := None |} |}
  end.

Definition deleteOutcome (r : SessionRoute.Response) : FetchOutcome :=
  match r with
  | SessionRoute.Ok => Responded true
  | SessionRoute.Failure status _ => Responded (statusOk status)
  end.

(** The request the verify route receives for
    [fetch("/api/siwe/verify", { method: "POST", body: JSON.stringify({
    message, signature }) })] sent to [host]. *)
Definition verifyRequest (host : option string) (message signature : string)
    : VerifyRoute.NextRequest :=
  {| VerifyRoute.json :=
       Returns {| VerifyRoute.message := Js.JsString message;
                  VerifyRoute.signature := Js.JsString signature |};
     VerifyRoute.host := host |}.

Section Server.

Context `{api : Viem.SiweApi}.

(** The server side of one sign-in: store faults, the nonce the nonce route
    generates, the clock of the verify request, and the Host header. *)
Record Backend : Type := {
  io : IronSession.Faults;
  generated : string;
  clock : VerifyRoute.Clock;
  host : option string;
}.

(** The cookie after the nonce route and, if reached, the verify route. *)
Definition cookieAfter (b : Backend) (cookie : Siwe.SiweSessionData)
    (done : list Effect) : Siwe.SiweSessionData :=
  foldl
    (fun c effect =>
       match effect with
       | FetchNonce => snd (NonceRoute.GET (io b) (generated b) c)
       | SignMessage _ => c
       | PostVerify message signature =>
           snd (VerifyRoute.POST (io b) (clock b)
                  (verifyRequest (host b) message signature) c)
       end)
    cookie done.

(** A [SignInEnv] whose two fetches are answered by the routes, starting
    from [cookie]; wallet, location, clock and message creation as given. *)
Definition against (b : Backend) (cookie : Siwe.SiweSessionData)
    (wallet : Account) (chain : Z) (loc : Location) (time : Z)
    (create : MessageFields -> Promise string)
    (sign : string -> Promise string) : SignInEnv :=
  let issued := NonceRoute.GET (io b) (generated b) cookie in
  {| account := wallet;
     walletChainId := chain;
     location := loc;
     fetchNonce := Resolves (nonceResponse (fst issued));
     now := time;
     createSiweMessage := create;
     signMessageAsync := sign;
     fetchVerify := fun message signature =>
       Resolves
         (verifyResponse
            (fst (VerifyRoute.POST (io b) (clock b)
                    (verifyRequest (host b) message signature)
                    (snd issued)))) |}.

End Server.

End Wire.

(** ** A concrete scenario

    The spec's scenario: nonce [n1], address [0xABCD...], chain 1, issued at
    [T], expiring at [T + 10 min].  The parser knows this one message; the
    signature oracle accepts the one signature made for signer and text. *)

Module Scenario.

Definition T : Z := 1700000000000.

Definition signer : string := "0xABCDabcdABCDabcdABCDabcdABCDabcdABCDabcd".

Definition text : string :=
  "localhost:3000 wants you to sign in with your Ethereum account: n1".

Definition parsed : Viem.SiweMessage :=
  {| Viem.address := Some signer;
     Viem.chainId := Some 1;
     Viem.domain := Some "localhost:3000";
     Viem.nonce := Some "n1";
     Viem.issuedAt := Some T;
     Viem.expirationTime := Some (T + 600000);
     Viem.notBefore := None |}.

Definition parse (m : string) : Exc Viem.SiweMessage :=
  if String.eqb m text then Returns parsed else Throws "not an EIP-4361 message".

Definition signed (a m : string) : string := "sig(" ++ a ++ "," ++ m ++ ")".

Definition verifyHash (client : Viem.PublicClient) (a m sig : string)
    : Exc bool :=
  Returns (String.eqb sig (signed a m)).

Definition api : Viem.SiweApi := Viem.specSiweApi parse verifyHash.

Definition request (host : string) : VerifyRoute.NextRequest :=
  {| VerifyRoute.json :=
       Returns {| VerifyRoute.message := Js.JsString text;
                  VerifyRoute.signature := Js.JsString (signed signer text) |};
     VerifyRoute.host := Some host |}.

(** All three clock reads at the same instant [now]. *)
Definition at_ (now : Z) : VerifyRoute.Clock :=
  {| VerifyRoute.verifyTime := now;
     VerifyRoute.diagnoseTime := now;
     VerifyRoute.signInTime := now |}.

(** The cookie once the nonce route has issued [n1] on a first visit. *)
Definition challenged : Siwe.SiweSessionData :=
  snd (NonceRoute.GET IronSession.noFaults "n1" Siwe.defaultSession).

(** The cookie after the scenario's successful verification at [T + 1]. *)
Definition authenticated : Siwe.SiweSessionData :=
  snd (VerifyRoute.POST (api := api) IronSession.noFaults (at_ (T + 1))
         (request "localhost:3000") challenged).

End Scenario.

(** ** A sign-in scenario

    The scenario's signer signs in from a page at [localhost:3000]; the two
    fetches are answered by the routes on a first visit, the verify request
    arriving with the given Host header. *)

Module SignInScenario.

Definition env (host : string) : UseSiwe.SignInEnv :=
  Wire.against (api := Scenario.api)
    {| Wire.io := IronSession.noFaults;
       Wire.generated := "n1";
       Wire.clock := Scenario.at_ (Scenario.T + 1);
       Wire.host := Some host |}
    Siwe.defaultSession
    {| UseSiwe.connectedAddress := Some Scenario.signer;
       UseSiwe.isConnected := true |}
    1
    {| UseSiwe.locationHost := "localhost:3000";
       UseSiwe.locationOrigin := "http://localhost:3000" |}
    Scenario.T
    (fun _ => UseSiwe.Resolves Scenario.text)
    (fun message =>
       UseSiwe.Resolves (Scenario.signed Scenario.signer message)).

End SignInScenario.

(** ** A scenario for the choice of oracle

    Every text reads as the scenario's message on the given chain, without
    time bounds, and the verifier says yes on mainnet's client only. *)

Module OracleScenario.

Definition parsedOn (chain : Z) : Viem.SiweMessage :=
  {| Viem.address := Some Scenario.signer;
     Viem.chainId := Some chain;
     Viem.domain := Some "localhost:3000";
     Viem.nonce := Some "n1";
     Viem.issuedAt := None;
     Viem.expirationTime := None;
     Viem.notBefore := None |}.

Definition mainnetOnly (chain : Z) : Viem.SiweApi :=
  {| Viem.parseSiweMessage := fun _ => Returns (parsedOn chain);
     Viem.verifySiweMessage := fun client _ =>
       Returns match Viem.chain client with
               | Viem.mainnet => true
               | _ => false
               end |}.

End OracleScenario.

(** ** Predicates of the statements *)

(** A secret is provided when the variable is set to a non-empty string:
    [if (secret)] treats the empty string like an unset variable. *)
Definition provided (secret : option string) : Prop :=
  exists s, secret = Some s /\ s <> "".

(** The [message] and [signature] of a request whose body passes step 1. *)
Definition wellShaped (request : VerifyRoute.NextRequest)
    (message signature : string) : Prop :=
  exists body,
    VerifyRoute.json request = Returns body
    /\ VerifyRoute.message body = Js.JsString message /\ message <> ""
    /\ VerifyRoute.signature body = Js.JsString signature /\ signature <> "".

(** The time [now] lies in the message's window [[notBefore, expirationTime)];
    an absent bound does not constrain. *)
Definition timely (m : Viem.SiweMessage) (now : Z) : Prop :=
  (forall nb, Viem.notBefore m = Some nb -> nb <= now)
  /\ (forall e, Viem.expirationTime m = Some e -> now < e).

(** The identity fields and the timestamp of a session record are set. *)
Definition identified (cookie : Siwe.SiweSessionData) : Prop :=
  is_Some (Siwe.address cookie) /\ is_Some (Siwe.chainId cookie)
  /\ is_Some (Siwe.signedInAt cookie).



(** * Properties *)

(** ** Helper facts on the JavaScript prelude *)

Lemma truthyString_Some (o : option string) :
  Js.truthyString o = true <-> exists s, o = Some s /\ s <> "".
Proof.
  destruct o as [s|]; simpl.
  - rewrite negb_true_iff. split.
    + intros H. exists s. split; [reflexivity|].
      intros ->. discriminate.
    + intros (s' & [= <-] & Hne). now apply String.eqb_neq.
  - split; [discriminate | intros (s & [=] & _)].
Qed.

Lemma truthy_Some (o : option string) (s : string) :
  Js.truthy o = Some s <-> o = Some s /\ s <> "".
Proof.
  destruct o as [s'|]; simpl; [|split; [discriminate | intros [[=] _]]].
  destruct (String.eqb_spec s' ""); split.
  - discriminate.
  - intros [[= ->] Hne]. contradiction.
  - intros [= ->]. split; [reflexivity | assumption].
  - intros [[= ->] _]. reflexivity.
Qed.

Lemma nonEmptyString_Some (v : Js.Value) (s : string) :
  Js.nonEmptyString v = Some s <-> v = Js.JsString s /\ s <> "".
Proof.
  destruct v; simpl; try (split; [discriminate | intros [[=] _]]).
  destruct (String.eqb_spec s0 ""); split.
  - discriminate.
  - intros [[= ->] Hne]. contradiction.
  - intros [= ->]. split; [reflexivity | assumption].
  - intros [[= ->] _]. reflexivity.
Qed.

Lemma strictNe_false (a : option string) (b : string) :
  Js.strictNe a b = false <-> a = Some b.
Proof.
  destruct a as [a|]; simpl.
  - rewrite negb_false_iff, String.eqb_eq.
    split; [intros -> | intros [= ->]]; reflexivity.
  - split; discriminate.
Qed.

(** Case analysis on the next guard of a handler: the body, a body field, a
    store fault, a truthiness test. *)
Ltac next_guard :=
  match goal with
  | |- context [match VerifyRoute.json ?r with _ => _ end] =>
      destruct (VerifyRoute.json r) eqn:?
  | |- context [match Js.nonEmptyString ?v with _ => _ end] =>
      destruct (Js.nonEmptyString v) eqn:?
  | |- context [if IronSession.loadFails ?io then _ else _] =>
      destruct (IronSession.loadFails io) eqn:?
  | |- context [if IronSession.saveFails ?io then _ else _] =>
      destruct (IronSession.saveFails io) eqn:?
  | |- context [match Js.truthy ?o with _ => _ end] =>
      destruct (Js.truthy o) eqn:?
  end.

(** ** Check-session *)

Section CheckSession.

Import Siwe IronSession.

(** C10: the check-session route answers with the authenticated shape
    exactly when the session loads, [isLoggedIn] is true and the address is
    present (a non-empty string); then the shape carries the session's
    address, chainId and signedInAt.  In every other case, among them a
    logged-in record without address and a failing load, it answers
    [defaultSession], that is [{ isLoggedIn: false }]. *)
Theorem check_session_shape (io : Faults) (cookie : SiweSessionData) :
  let present := exists a, address cookie = Some a /\ a <> "" in
  let answer := SessionRoute.GET io cookie in
  (isLoggedIn answer = true <->
     loadFails io = false /\ isLoggedIn cookie = true /\ present)
  /\ (isLoggedIn answer = true ->
        answer = {| address := address cookie; chainId := chainId cookie;
                    nonce := None; isLoggedIn := true;
                    signedInAt := signedInAt cookie |})
  /\ (isLoggedIn answer = false -> answer = defaultSession)
  /\ (isLoggedIn cookie = true -> address cookie = None ->
        answer = defaultSession)
  /\ (loadFails io = true -> answer = defaultSession).
Proof.
  cbv zeta. unfold SessionRoute.GET, getIronSession.
  destruct (loadFails io) eqn:Hload; simpl.
  - repeat split; try reflexivity; try discriminate.
    intros (H & _); discriminate.
  - destruct (isLoggedIn cookie) eqn:Hin; simpl.
    + destruct (Js.truthyString (address cookie)) eqn:Haddr; simpl.
      * apply truthyString_Some in Haddr.
        repeat split; auto; try discriminate.
        intros _ Hnone. destruct Haddr as (a & Ha & _). congruence.
      * repeat split; auto; try discriminate.
        intros (_ & _ & Hp). apply truthyString_Some in Hp. congruence.
    + repeat split; auto; try discriminate.
      intros (_ & H & _); discriminate.
Qed.

Lemma check_session_shape_witness :
  SessionRoute.GET noFaults
    {| address := None; chainId := Some 1; nonce := None;
       isLoggedIn := true; signedInAt := Some Scenario.T |}
  = defaultSession
  /\ SessionRoute.GET noFaults Scenario.authenticated
     = {| address := Some Scenario.signer; chainId := Some 1; nonce := None;
          isLoggedIn := true; signedInAt := Some (Scenario.T + 1) |}.
Proof.
  split.
  - refine (proj1 (proj2 (proj2 (proj2
      (check_session_shape noFaults
         {| address := None; chainId := Some 1; nonce := None;
            isLoggedIn := true; signedInAt := Some Scenario.T |})))) _ _);
      reflexivity.
  - refine (proj1 (proj2
      (check_session_shape noFaults Scenario.authenticated)) _).
    reflexivity.
Defined.

End CheckSession.

(** ** Session secret *)

Section SessionSecret.

Import Siwe.

Lemma provided_truthy (secret : option string) :
  provided secret <-> is_Some (Js.truthy secret).
Proof.
  unfold provided. split.
  - intros (s & Hs & Hne). exists s. now apply truthy_Some.
  - intros [s Hs%truthy_Some]. now exists s.
Qed.

Lemma not_provided_password (env : ProcessEnv) :
  ~ provided (IRON_SESSION_SECRET env) ->
  getSessionPassword env =
    if isProduction env then Throws secretRequired else Returns devFallback.
Proof.
  intros Hno. unfold getSessionPassword.
  destruct (Js.truthy (IRON_SESSION_SECRET env)) eqn:Ht; [|reflexivity].
  exfalso. apply Hno, provided_truthy. now rewrite Ht.
Qed.

Lemma isProduction_spec (env : ProcessEnv) :
  isProduction env = true <-> NODE_ENV env = Some "production".
Proof.
  unfold isProduction. rewrite negb_true_iff. apply strictNe_false.
Qed.

Lemma provided_password (env : ProcessEnv) (s : string) :
  IRON_SESSION_SECRET env = Some s -> s <> "" ->
  getSessionPassword env =
    if Nat.ltb (String.length s) 32 then Throws secretTooShort else Returns s.
Proof.
  intros Hs Hne. unfold getSessionPassword.
  assert (Ht : Js.truthy (IRON_SESSION_SECRET env) = Some s)
    by now apply truthy_Some.
  now rewrite Ht.
Qed.

Lemma sessionOptions_throws (env : ProcessEnv) (e : string) :
  getSessionPassword env = Throws e -> sessionOptions env = Throws e.
Proof. unfold sessionOptions. now intros ->. Qed.

(** C7: a provided secret shorter than 32 characters makes the module
    initialiser of [sessionOptions] throw, a provided one of at least 32
    characters is the password; without a secret the initialiser throws in
    production and yields the fixed development key (itself 32 characters
    or more) otherwise; so a production deployment with a 16-character
    secret throws at module load, before any handler can run. *)
Theorem session_secret_configuration (env : ProcessEnv) :
  (forall s, IRON_SESSION_SECRET env = Some s -> s <> "" ->
     (String.length s < 32)%nat ->
     getSessionPassword env = Throws secretTooShort
     /\ sessionOptions env = Throws secretTooShort)
  /\ (forall s, IRON_SESSION_SECRET env = Some s ->
        (32 <= String.length s)%nat ->
        getSessionPassword env = Returns s)
  /\ (~ provided (IRON_SESSION_SECRET env) ->
        NODE_ENV env = Some "production" ->
        getSessionPassword env = Throws secretRequired
        /\ sessionOptions env = Throws secretRequired)
  /\ (~ provided (IRON_SESSION_SECRET env) ->
        NODE_ENV env <> Some "production" ->
        getSessionPassword env = Returns devFallback
        /\ (32 <= String.length devFallback)%nat)
  /\ (forall s, IRON_SESSION_SECRET env = Some s ->
        String.length s = 16%nat ->
        NODE_ENV env = Some "production" ->
        sessionOptions env = Throws secretTooShort).
Proof.
  repeat apply conj.
  - intros s Hs Hne Hlen.
    assert (H : getSessionPassword env = Throws secretTooShort).
    { rewrite (provided_password env s Hs Hne).
      apply Nat.ltb_lt in Hlen. now rewrite Hlen. }
    split; [exact H | now apply sessionOptions_throws].
  - intros s Hs Hlen.
    assert (Hne : s <> "") by (intros ->; simpl in Hlen; lia).
    rewrite (provided_password env s Hs Hne).
    apply Nat.ltb_ge in Hlen. now rewrite Hlen.
  - intros Hno Hprod.
    assert (H : getSessionPassword env = Throws secretRequired)
      by (apply isProduction_spec in Hprod;
          rewrite (not_provided_password env Hno), Hprod; reflexivity).
    split; [exact H | now apply sessionOptions_throws].
  - intros Hno Hdev. split.
    + rewrite (not_provided_password env Hno).
      destruct (isProduction env) eqn:Hp; [|reflexivity].
      apply isProduction_spec in Hp. contradiction.
    + cbn. lia.
  - intros s Hs Hlen _.
    assert (Hne : s <> "") by (intros ->; discriminate).
    apply sessionOptions_throws.
    rewrite (provided_password env s Hs Hne), Hlen. reflexivity.
Qed.

Lemma session_secret_configuration_witness :
  sessionOptions {| IRON_SESSION_SECRET := Some "0123456789abcdef";
                    NODE_ENV := Some "production" |}
  = Throws secretTooShort.
Proof.
  refine (proj2 (proj2 (proj2 (proj2
    (session_secret_configuration
       {| IRON_SESSION_SECRET := Some "0123456789abcdef";
          NODE_ENV := Some "production" |}))))
    "0123456789abcdef" _ _ _); reflexivity.
Defined.

End SessionSecret.

(** ** Choice of the verification oracle *)

Section Oracle.

Import VerifyRoute.

Lemma supported_chain_by_id (c : Viem.Chain) :
  SUPPORTED_CHAINS !! Viem.id c = Some c.
Proof. destruct c; reflexivity. Qed.

Lemma supported_chain_inv (n : Z) (c : Viem.Chain) :
  SUPPORTED_CHAINS !! n = Some c -> Viem.id c = n.
Proof.
  unfold SUPPORTED_CHAINS. simpl.
  repeat (rewrite lookup_insert; case_decide;
          [intros [= <-]; subst n; reflexivity|]).
  rewrite lookup_empty. discriminate.
Qed.

Lemma supported_chain_nonzero (n : Z) (c : Viem.Chain) :
  SUPPORTED_CHAINS !! n = Some c -> n <> 0.
Proof.
  intros H%supported_chain_inv ->. destruct c; discriminate.
Qed.

Lemma client_of_unsupported (n : Z) :
  SUPPORTED_CHAINS !! n = None ->
  getPublicClientForChain (Some n) = Viem.createPublicClient Viem.mainnet.
Proof.
  intros Hn. unfold getPublicClientForChain.
  destruct (Js.truthyNumber (Some n)); simpl; [rewrite Hn|]; reflexivity.
Qed.

Lemma client_of_supported (n : Z) (c : Viem.Chain) :
  SUPPORTED_CHAINS !! n = Some c ->
  getPublicClientForChain (Some n) = Viem.createPublicClient c.
Proof.
  intros Hn. unfold getPublicClientForChain.
  pose proof (supported_chain_nonzero n c Hn) as Hnz.
  simpl. apply Z.eqb_neq in Hnz. rewrite Hnz. simpl. rewrite Hn. reflexivity.
Qed.

(** The handler consults the verifier on one client only: two verifiers
    that agree on the client chosen for the parsed message's chainId give
    the same response and the same cookie. *)
Lemma POST_uses_chosen_client
    (parse : string -> Exc Viem.SiweMessage)
    (v1 v2 : Viem.PublicClient -> Viem.VerifyParameters -> Exc bool)
    (io : IronSession.Faults) (clock : Clock) (request : NextRequest)
    (cookie : Siwe.SiweSessionData) :
  (forall params m,
     parse (Viem.message params) = Returns m ->
     v1 (getPublicClientForChain (Viem.chainId m)) params
     = v2 (getPublicClientForChain (Viem.chainId m)) params) ->
  POST (api := {| Viem.parseSiweMessage := parse;
                  Viem.verifySiweMessage := v1 |}) io clock request cookie
  = POST (api := {| Viem.parseSiweMessage := parse;
                    Viem.verifySiweMessage := v2 |}) io clock request cookie.
Proof.
  intros Hagree. unfold POST.
  destruct (json request) as [body|]; [|reflexivity].
  destruct (Js.nonEmptyString (message body)) as [message|]; [|reflexivity].
  destruct (Js.nonEmptyString (signature body)) as [signature|];
    [|reflexivity].
  destruct (IronSession.getIronSession io cookie) as [session|];
    [|reflexivity].
  destruct (Js.truthy (Siwe.nonce session)) as [storedNonce|];
    [|reflexivity].
  unfold verifyAndPromote. simpl.
  destruct (parse message) as [m|] eqn:Hparse; [|reflexivity].
  destruct (Js.truthy (host request)) as [expectedDomain|]; [|reflexivity].
  rewrite (Hagree {| Viem.message := message; Viem.signature := signature;
                     Viem.expectedDomain := expectedDomain;
                     Viem.expectedNonce := storedNonce;
                     Viem.time := verifyTime clock |} m Hparse).
  reflexivity.
Qed.

End Oracle.

(** ** The verify route: failures, success, replay *)

Section VerifyOutcomes.

Import Siwe IronSession VerifyRoute.

Context `{api : Viem.SiweApi}.

(** The session record written by step 6 for the parsed message [m]. *)
Local Abbreviation promoted m clock :=
  {| address := Viem.address m; chainId := Viem.chainId m; nonce := None;
     isLoggedIn := true; signedInAt := Some (signInTime clock) |}.

Local Abbreviation parameters message signature d n clock :=
  {| Viem.message := message; Viem.signature := signature;
     Viem.expectedDomain := d; Viem.expectedNonce := n;
     Viem.time := verifyTime clock |}.

Lemma wellShaped_body (request : NextRequest) (message signature : string) :
  wellShaped request message signature <->
  exists body, json request = Returns body
    /\ Js.nonEmptyString (VerifyRoute.message body) = Some message
    /\ Js.nonEmptyString (VerifyRoute.signature body) = Some signature.
Proof.
  unfold wellShaped. split.
  - intros (body & Hj & Hm & Hmne & Hs & Hsne). exists body.
    repeat split; [exact Hj | |]; now apply nonEmptyString_Some.
  - intros (body & Hj & Hm & Hs).
    apply nonEmptyString_Some in Hm as [Hm Hmne].
    apply nonEmptyString_Some in Hs as [Hs Hsne].
    exists body. repeat split; assumption.
Qed.

(** Past steps 1 and 2 the handler is [verifyAndPromote]. *)
Lemma POST_past_nonce (io : Faults) (clock : Clock) (request : NextRequest)
    (cookie : SiweSessionData) (message signature storedNonce : string) :
  wellShaped request message signature ->
  loadFails io = false ->
  nonce cookie = Some storedNonce -> storedNonce <> "" ->
  POST io clock request cookie =
    verifyAndPromote io clock request message signature storedNonce cookie.
Proof.
  intros (body & Hj & Hm & Hs)%wellShaped_body Hload Hn Hne.
  unfold POST, getIronSession. rewrite Hj, Hm, Hs, Hload.
  assert (Ht : Js.truthy (nonce cookie) = Some storedNonce)
    by now apply truthy_Some.
  now rewrite Ht.
Qed.

Lemma verifyAndPromote_failure_keeps (io : Faults) (clock : Clock)
    (request : NextRequest) (message signature storedNonce : string)
    (cookie : SiweSessionData) (status : Z) (error : string) :
  fst (verifyAndPromote io clock request message signature storedNonce cookie)
    = Failure status error ->
  snd (verifyAndPromote io clock request message signature storedNonce cookie)
    = cookie.
Proof.
  unfold verifyAndPromote, save.
  destruct (Viem.parseSiweMessage message); [|reflexivity].
  destruct (Js.truthy (host request)); [|reflexivity].
  destruct (Viem.verifySiweMessage _ _) as [[]|]; try reflexivity.
  destruct (saveFails io); [reflexivity | discriminate].
Qed.

Lemma POST_failure_keeps (io : Faults) (clock : Clock) (request : NextRequest)
    (cookie : SiweSessionData) (status : Z) (error : string) :
  fst (POST io clock request cookie) = Failure status error ->
  snd (POST io clock request cookie) = cookie.
Proof.
  unfold POST, getIronSession.
  repeat (next_guard; try reflexivity).
  apply verifyAndPromote_failure_keeps.
Qed.

(** What a successful verification went through, and what it wrote. *)
Lemma POST_success_inv (io : Faults) (clock : Clock) (request : NextRequest)
    (cookie cookie' : SiweSessionData)
    (a : option string) (c : option Z) (t : Z) :
  POST io clock request cookie = (Success a c t, cookie') ->
  exists message signature storedNonce expectedDomain m,
    wellShaped request message signature
    /\ loadFails io = false /\ saveFails io = false
    /\ nonce cookie = Some storedNonce /\ storedNonce <> ""
    /\ Viem.parseSiweMessage message = Returns m
    /\ host request = Some expectedDomain /\ expectedDomain <> ""
    /\ Viem.verifySiweMessage (getPublicClientForChain (Viem.chainId m))
         (parameters message signature expectedDomain storedNonce clock)
       = Returns true
    /\ a = Viem.address m /\ c = Viem.chainId m /\ t = signInTime clock
    /\ cookie' = promoted m clock.
Proof.
  unfold POST, getIronSession.
  destruct (json request) as [body|] eqn:Hj; [|discriminate].
  destruct (Js.nonEmptyString (VerifyRoute.message body))
    as [message|] eqn:Hm; [|discriminate].
  destruct (Js.nonEmptyString (VerifyRoute.signature body))
    as [signature|] eqn:Hs; [|discriminate].
  destruct (loadFails io) eqn:Hload; [discriminate|].
  destruct (Js.truthy (nonce cookie)) as [storedNonce|] eqn:Hn;
    [|discriminate].
  unfold verifyAndPromote, save.
  destruct (Viem.parseSiweMessage message) as [m|] eqn:Hp; [|discriminate].
  destruct (Js.truthy (host request)) as [d|] eqn:Hd; [|discriminate].
  destruct (Viem.verifySiweMessage _ _) as [[]|] eqn:Hv; try discriminate.
  destruct (saveFails io) eqn:Hsave; [discriminate|].
  intros [= <- <- <- <-].
  apply truthy_Some in Hn as [Hn Hnne]. apply truthy_Some in Hd as [Hd Hdne].
  exists message, signature, storedNonce, d, m.
  repeat split; try assumption; try reflexivity.
  apply wellShaped_body. eauto.
Qed.

Lemma POST_success (io : Faults) (clock : Clock) (request : NextRequest)
    (cookie : SiweSessionData)
    (message signature storedNonce expectedDomain : string)
    (m : Viem.SiweMessage) :
  wellShaped request message signature ->
  loadFails io = false -> saveFails io = false ->
  nonce cookie = Some storedNonce -> storedNonce <> "" ->
  Viem.parseSiweMessage message = Returns m ->
  host request = Some expectedDomain -> expectedDomain <> "" ->
  Viem.verifySiweMessage (getPublicClientForChain (Viem.chainId m))
    (parameters message signature expectedDomain storedNonce clock)
    = Returns true ->
  POST io clock request cookie =
    (Success (Viem.address m) (Viem.chainId m) (signInTime clock),
     promoted m clock).
Proof.
  intros Hshape Hload Hsave Hn Hnne Hp Hd Hdne Hv.
  rewrite (POST_past_nonce io clock request cookie _ _ _ Hshape Hload Hn Hnne).
  unfold verifyAndPromote, save. rewrite Hp.
  assert (Ht : Js.truthy (host request) = Some expectedDomain)
    by now apply truthy_Some.
  rewrite Ht, Hv, Hsave. reflexivity.
Qed.

(** With no pending nonce a well-shaped request gets the no-nonce answer. *)
Lemma POST_without_nonce (io : Faults) (clock : Clock) (request : NextRequest)
    (cookie : SiweSessionData) (message signature : string) :
  wellShaped request message signature ->
  nonce cookie = None ->
  POST io clock request cookie =
    (if loadFails io then unexpected else noNonce, cookie).
Proof.
  intros (body & Hj & Hm & Hs)%wellShaped_body Hn.
  unfold POST, getIronSession. rewrite Hj, Hm, Hs.
  destruct (loadFails io); [reflexivity|]. now rewrite Hn.
Qed.

(** C5: a verify call that answers with a failure, whatever the step that
    failed, leaves the cookie's content as it was, the pending nonce
    included; so the same call against the result is the same call. *)
Theorem failed_verify_keeps_session (io : Faults) (clock : Clock)
    (request : NextRequest) (cookie : SiweSessionData)
    (status : Z) (error : string) :
  fst (POST io clock request cookie) = Failure status error ->
  snd (POST io clock request cookie) = cookie
  /\ nonce (snd (POST io clock request cookie)) = nonce cookie
  /\ forall io' clock' request',
       POST io' clock' request' (snd (POST io clock request cookie))
       = POST io' clock' request' cookie.
Proof.
  intros Hfail. pose proof (POST_failure_keeps _ _ _ _ _ _ Hfail) as Hkeep.
  rewrite Hkeep. repeat split; reflexivity.
Qed.

(** C1, as the code has it: once a verify call succeeded, a second call
    with the same request is answered with a failure that leaves the
    session as is, and when the session loads, that failure is the
    400 no-nonce answer, because success cleared the nonce. *)
Theorem replay_finds_no_nonce (io : Faults) (clock : Clock)
    (request : NextRequest) (cookie cookie' : SiweSessionData)
    (a : option string) (c : option Z) (t : Z) :
  POST io clock request cookie = (Success a c t, cookie') ->
  nonce cookie' = None
  /\ forall io' clock',
       POST io' clock' request cookie'
       = (if loadFails io' then unexpected else noNonce, cookie').
Proof.
  intros Hok.
  destruct (POST_success_inv _ _ _ _ _ _ _ _ Hok)
    as (message & signature & n & d & m & Hshape & _ & _ & _ & _ & _ & _
        & _ & _ & _ & _ & _ & ->).
  split; [reflexivity|].
  intros io' clock'. now apply (POST_without_nonce _ _ _ _ message signature).
Qed.

End VerifyOutcomes.

Section Replay.

Import Siwe IronSession VerifyRoute.

Lemma replay_finds_no_nonce_witness :
  POST (api := Scenario.api) noFaults (Scenario.at_ (Scenario.T + 2))
    (Scenario.request "localhost:3000") Scenario.authenticated
  = (noNonce, Scenario.authenticated).
Proof.
  refine (proj2 (replay_finds_no_nonce (api := Scenario.api) noFaults
                   (Scenario.at_ (Scenario.T + 1))
                   (Scenario.request "localhost:3000")
                   Scenario.challenged Scenario.authenticated
                   (Some Scenario.signer) (Some 1) (Scenario.T + 1) _)
                noFaults (Scenario.at_ (Scenario.T + 2))).
  vm_compute. reflexivity.
Defined.

(** C1 as stated fails: in the spec's scenario the first call succeeds and
    the replay is answered with the no-nonce error, not with the
    nonce-mismatch error. *)
Lemma replay_is_not_nonce_mismatch :
  let first :=
    POST (api := Scenario.api) noFaults (Scenario.at_ (Scenario.T + 1))
      (Scenario.request "localhost:3000") Scenario.challenged in
  let second :=
    POST (api := Scenario.api) noFaults (Scenario.at_ (Scenario.T + 2))
      (Scenario.request "localhost:3000") (snd first) in
  fst first = Success (Some Scenario.signer) (Some 1) (Scenario.T + 1)
  /\ fst second =
       Failure 400
         "No nonce found in session. Please call GET /api/siwe/nonce first."
  /\ forall status,
       fst second <>
       Failure status
         "Nonce mismatch. Please request a new nonce and try again.".
Proof.
  vm_compute. repeat split. intros status [=].
Qed.

Lemma failed_verify_keeps_session_witness :
  snd (POST (api := Scenario.api) noFaults
         (Scenario.at_ (Scenario.T + 600001))
         (Scenario.request "localhost:3000") Scenario.challenged)
  = Scenario.challenged.
Proof.
  refine (proj1 (failed_verify_keeps_session (api := Scenario.api) noFaults
                   (Scenario.at_ (Scenario.T + 600001))
                   (Scenario.request "localhost:3000") Scenario.challenged
                   400 "Message has expired. Please sign a new message." _)).
  vm_compute. reflexivity.
Defined.

End Replay.

(** ** Destruction *)

Section Destruction.

Import Siwe IronSession VerifyRoute Server.

Context `{api : Viem.SiweApi}.

Lemma DELETE_ok (io : Faults) (cookie cookie' : SiweSessionData) :
  SessionRoute.DELETE io cookie = (SessionRoute.Ok, cookie') ->
  cookie' = defaultSession.
Proof.
  unfold SessionRoute.DELETE, getIronSession, destroy.
  destruct (loadFails io); [discriminate|].
  destruct (saveFails io); [discriminate|].
  now intros [= <-].
Qed.

Lemma POST_on_empty (io : Faults) (clock : Clock) (request : NextRequest) :
  snd (POST io clock request defaultSession) = defaultSession.
Proof.
  unfold POST, getIronSession.
  repeat (next_guard; try reflexivity).
Qed.

Lemma step_keeps_empty (call : Call) :
  issuesNonce call = false -> step call defaultSession = defaultSession.
Proof.
  destruct call as [io g|io clock request|io|io]; simpl.
  - discriminate.
  - intros _. apply POST_on_empty.
  - reflexivity.
  - intros _. unfold SessionRoute.DELETE, getIronSession, destroy.
    repeat (next_guard; try reflexivity).
Qed.

Lemma run_keeps_empty (calls : list Call) :
  Forall (fun call => issuesNonce call = false) calls ->
  run calls defaultSession = defaultSession.
Proof.
  unfold run. induction 1 as [|call calls Hcall _ IH]; simpl.
  - reflexivity.
  - now rewrite (step_keeps_empty call Hcall).
Qed.

(** C6: once the DELETE route answered [{ ok: true }], and as long as no
    new nonce is requested, every check-session call answers
    [defaultSession], and every verify call whose body passes the shape
    check (so also one whose message carries the discarded nonce) is
    answered, when the session loads, with the 400 no-nonce error and
    changes nothing. *)
Theorem destroyed_session (io : Faults) (cookie cookie' : SiweSessionData)
    (calls : list Call) :
  SessionRoute.DELETE io cookie = (SessionRoute.Ok, cookie') ->
  Forall (fun call => issuesNonce call = false) calls ->
  (forall io', SessionRoute.GET io' (run calls cookie') = defaultSession)
  /\ (forall io' clock request message signature,
        wellShaped request message signature ->
        loadFails io' = false ->
        POST io' clock request (run calls cookie')
        = (noNonce, run calls cookie')).
Proof.
  intros ->%DELETE_ok Hcalls. rewrite (run_keeps_empty calls Hcalls). split.
  - intros io'. unfold SessionRoute.GET, getIronSession.
    destruct (loadFails io'); reflexivity.
  - intros io' clock request message signature Hshape Hload.
    rewrite (POST_without_nonce io' clock request defaultSession
               message signature Hshape eq_refl).
    now rewrite Hload.
Qed.

End Destruction.

Section DestructionScenario.

Import Siwe IronSession VerifyRoute Server.

Lemma scenario_request_wellShaped (host : string) :
  wellShaped (Scenario.request host) Scenario.text
    (Scenario.signed Scenario.signer Scenario.text).
Proof.
  eexists. split; [reflexivity|].
  repeat split; discriminate.
Qed.

Lemma destroyed_session_witness :
  SessionRoute.GET noFaults
    (run (api := Scenario.api) [CheckSession noFaults]
       (snd (SessionRoute.DELETE noFaults Scenario.challenged)))
  = defaultSession
  /\ fst (POST (api := Scenario.api) noFaults (Scenario.at_ (Scenario.T + 1))
            (Scenario.request "localhost:3000")
            (run (api := Scenario.api) [CheckSession noFaults]
               (snd (SessionRoute.DELETE noFaults Scenario.challenged))))
     = noNonce.
Proof.
  destruct (destroyed_session (api := Scenario.api) noFaults
              Scenario.challenged
              (snd (SessionRoute.DELETE noFaults Scenario.challenged))
              [CheckSession noFaults] eq_refl
              ltac:(repeat constructor))
    as [Hcheck Hverify].
  split.
  - apply Hcheck.
  - rewrite (Hverify noFaults (Scenario.at_ (Scenario.T + 1))
               (Scenario.request "localhost:3000") _ _
               (scenario_request_wellShaped "localhost:3000") eq_refl).
    reflexivity.
Defined.

End DestructionScenario.

(** ** The verifier modelled from the spec: time window and round trip *)

Section SpecVerifier.

Import Siwe IronSession VerifyRoute.

Variable parse : string -> Exc Viem.SiweMessage.
Variable verifyHash :
  Viem.PublicClient -> string -> string -> string -> Exc bool.

Local Abbreviation api := (Viem.specSiweApi parse verifyHash).

Lemma validate_spec (m : Viem.SiweMessage) (p : Viem.VerifyParameters) :
  Viem.validateSiweMessage m p = true <->
  Viem.domain m = Some (Viem.expectedDomain p)
  /\ Viem.nonce m = Some (Viem.expectedNonce p)
  /\ timely m (Viem.time p).
Proof.
  unfold Viem.validateSiweMessage, timely.
  rewrite !andb_true_iff, !negb_true_iff, !strictNe_false.
  split.
  - intros (((Hd & Hn) & He) & Hnb). repeat split; try assumption.
    + intros nb Heq. rewrite Heq in Hnb.
      apply negb_true_iff, Z.ltb_ge in Hnb. exact Hnb.
    + intros e Heq. rewrite Heq in He.
      apply negb_true_iff, Z.leb_gt in He. exact He.
  - intros (Hd & Hn & Hnb & He). repeat split; try assumption.
    + destruct (Viem.expirationTime m) as [e|]; [|reflexivity].
      apply negb_true_iff, Z.leb_gt. now apply He.
    + destruct (Viem.notBefore m) as [nb|]; [|reflexivity].
      apply negb_true_iff, Z.ltb_ge. now apply Hnb.
Qed.

Lemma spec_verify_accepts (client : Viem.PublicClient)
    (p : Viem.VerifyParameters) :
  Viem.specVerifySiweMessage parse verifyHash client p = Returns true <->
  exists m a,
    parse (Viem.message p) = Returns m /\ Viem.address m = Some a
    /\ Viem.validateSiweMessage m p = true
    /\ verifyHash client a (Viem.message p) (Viem.signature p) = Returns true.
Proof.
  unfold Viem.specVerifySiweMessage. split.
  - destruct (parse (Viem.message p)) as [m|]; [|discriminate].
    destruct (Viem.address m) as [a|] eqn:Ha; [|discriminate].
    destruct (Viem.validateSiweMessage m p) eqn:Hv; [|discriminate].
    intros Hh. exists m, a. repeat split; assumption.
  - intros (m & a & -> & -> & -> & Hh). exact Hh.
Qed.

(** A response is either a failure that kept the cookie or a success. *)
Lemma POST_failure_or_success (io : Faults) (clock : Clock)
    (request : NextRequest) (cookie : SiweSessionData) :
  (exists status error,
     POST (api := api) io clock request cookie
     = (Failure status error, cookie))
  \/ (exists a c t cookie',
        POST (api := api) io clock request cookie
        = (Success a c t, cookie')).
Proof.
  destruct (POST (api := api) io clock request cookie) as [r cookie'] eqn:HP.
  destruct r as [a c t|status error].
  - right. now exists a, c, t, cookie'.
  - left. exists status, error.
    pose proof (POST_failure_keeps (api := api) io clock request cookie
                  status error) as Hkeep.
    rewrite HP in Hkeep. simpl in Hkeep. now rewrite Hkeep.
Qed.

Lemma wellShaped_unique (request : NextRequest)
    (message signature message' signature' : string) :
  wellShaped request message signature ->
  wellShaped request message' signature' ->
  message = message' /\ signature = signature'.
Proof.
  intros (b & Hj & Hm & _ & Hs & _) (b' & Hj' & Hm' & _ & Hs' & _).
  rewrite Hj in Hj'. injection Hj' as <-.
  rewrite Hm in Hm'. rewrite Hs in Hs'.
  injection Hm' as <-. injection Hs' as <-. now split.
Qed.

Lemma accepted_timely (io : Faults) (clock : Clock) (request : NextRequest)
    (cookie cookie' : SiweSessionData) (message signature : string)
    (m : Viem.SiweMessage) (a : option string) (c : option Z) (t : Z) :
  wellShaped request message signature ->
  parse message = Returns m ->
  POST (api := api) io clock request cookie = (Success a c t, cookie') ->
  timely m (verifyTime clock).
Proof.
  intros Hshape Hparse Hok.
  destruct (POST_success_inv (api := api) _ _ _ _ _ _ _ _ Hok)
    as (message' & signature' & n & d & m' & Hshape' & _ & _ & _ & _ & Hp'
        & _ & _ & Hv & _).
  destruct (wellShaped_unique _ _ _ _ _ Hshape Hshape') as [<- <-].
  simpl in Hp'. rewrite Hparse in Hp'. injection Hp' as <-.
  simpl in Hv. apply spec_verify_accepts in Hv
    as (m0 & a0 & Hp0 & _ & Hval & _).
  simpl in Hp0. rewrite Hparse in Hp0. injection Hp0 as <-.
  apply validate_spec in Hval as (_ & _ & Htimely). exact Htimely.
Qed.

(** The time window of the verify route, with the verifier of the spec: a
    message read
    at or after its expirationTime (or before its notBefore) is answered
    with a failure that leaves the session as is, so acceptance implies the
    time of verification lies in [[notBefore, expirationTime)]; the failure
    is the expired-message error when the request reaches verification, the
    message's domain and nonce are the expected ones, and the clock read of
    the diagnosis is strictly after expirationTime. *)
Theorem expiry_window (io : Faults) (clock : Clock) (request : NextRequest)
    (cookie : SiweSessionData) (message signature : string)
    (m : Viem.SiweMessage) :
  wellShaped request message signature ->
  parse message = Returns m ->
  (forall e, Viem.expirationTime m = Some e -> e <= verifyTime clock ->
     exists status error,
       POST (api := api) io clock request cookie
       = (Failure status error, cookie))
  /\ (forall nb, Viem.notBefore m = Some nb -> verifyTime clock < nb ->
        exists status error,
          POST (api := api) io clock request cookie
          = (Failure status error, cookie))
  /\ (forall a c t cookie',
        POST (api := api) io clock request cookie = (Success a c t, cookie')
        -> timely m (verifyTime clock))
  /\ (forall e n d,
        loadFails io = false ->
        nonce cookie = Some n -> n <> "" ->
        host request = Some d -> d <> "" ->
        Viem.domain m = Some d -> Viem.nonce m = Some n ->
        Viem.expirationTime m = Some e ->
        e <= verifyTime clock -> e < diagnoseTime clock ->
        POST (api := api) io clock request cookie
        = (Failure 400 "Message has expired. Please sign a new message.",
           cookie)).
Proof.
  intros Hshape Hparse.
  assert (Hrej : ~ timely m (verifyTime clock) ->
                 exists status error,
                   POST (api := api) io clock request cookie
                   = (Failure status error, cookie)).
  { intros Hnot.
    destruct (POST_failure_or_success io clock request cookie)
      as [Hf|(a & c & t & cookie' & Hok)]; [exact Hf|].
    exfalso. apply Hnot. eapply accepted_timely; eassumption. }
  split; [|split; [|split]].
  - intros e He Hlate. apply Hrej. intros [_ Hw].
    specialize (Hw e He). lia.
  - intros nb Hnb Hearly. apply Hrej. intros [Hw _].
    specialize (Hw nb Hnb). lia.
  - intros a c t cookie' Hok. eapply accepted_timely; eassumption.
  - intros e n d Hload Hn Hnne Hd Hdne Hdom Hnonce He Hlate Hdiag.
    rewrite (POST_past_nonce (api := api) io clock request cookie
               _ _ _ Hshape Hload Hn Hnne).
    unfold verifyAndPromote. simpl. rewrite Hparse.
    assert (Ht : Js.truthy (host request) = Some d) by now apply truthy_Some.
    rewrite Ht.
    assert (Hv : Viem.specVerifySiweMessage parse verifyHash
                   (getPublicClientForChain (Viem.chainId m))
                   {| Viem.message := message; Viem.signature := signature;
                      Viem.expectedDomain := d; Viem.expectedNonce := n;
                      Viem.time := verifyTime clock |} = Returns false).
    { unfold Viem.specVerifySiweMessage. simpl. rewrite Hparse.
      destruct (Viem.address m); [|reflexivity].
      unfold Viem.validateSiweMessage. simpl. rewrite He.
      apply Z.leb_le in Hlate. rewrite Hlate.
      now rewrite !andb_false_r. }
    rewrite Hv. unfold getVerificationErrorMessage.
    apply strictNe_false in Hdom, Hnonce. rewrite Hdom, Hnonce, He.
    apply Z.ltb_lt in Hdiag. rewrite Hdiag. reflexivity.
Qed.

End SpecVerifier.

Section ExpiryScenario.

Import Siwe IronSession VerifyRoute.

Lemma expiry_window_witness :
  POST (api := Scenario.api) noFaults (Scenario.at_ (Scenario.T + 600001))
    (Scenario.request "localhost:3000") Scenario.challenged
  = (Failure 400 "Message has expired. Please sign a new message.",
     Scenario.challenged).
Proof.
  refine (proj2 (proj2 (proj2
    (expiry_window Scenario.parse Scenario.verifyHash noFaults
       (Scenario.at_ (Scenario.T + 600001))
       (Scenario.request "localhost:3000") Scenario.challenged
       Scenario.text (Scenario.signed Scenario.signer Scenario.text)
       Scenario.parsed _ _)))
    (Scenario.T + 600000) "n1" "localhost:3000" _ _ _ _ _ _ _ _ _ _);
    try reflexivity; try discriminate.
  eexists. split; [reflexivity|]. repeat split; discriminate.
Defined.

(** The diagnosis follows its own order: a message past its expirationTime
    that also names another domain is rejected with the domain-mismatch
    error, the first check of the diagnosis. *)
Lemma expired_but_domain_reported :
  Viem.parseSiweMessage (SiweApi := Scenario.api) Scenario.text
    = Returns Scenario.parsed
  /\ Viem.expirationTime Scenario.parsed = Some (Scenario.T + 600000)
  /\ Scenario.T + 600000 <= Scenario.T + 600001
  /\ fst (POST (api := Scenario.api) noFaults
            (Scenario.at_ (Scenario.T + 600001))
            (Scenario.request "evil.example") Scenario.challenged)
     = Failure 400
         "Domain mismatch. Expected: evil.example, Got: localhost:3000"
  /\ fst (POST (api := Scenario.api) noFaults
            (Scenario.at_ (Scenario.T + 600001))
            (Scenario.request "evil.example") Scenario.challenged)
     <> Failure 400 "Message has expired. Please sign a new message.".
Proof.
  vm_compute. repeat split; discriminate.
Qed.

(** At the instant of expiry itself the verifier rejects, and a diagnosis
    taken at that same instant passes its own [expirationTime < now] test
    and ends at the default branch. *)
Example expiry_instant_diagnosis :
  POST (api := Scenario.api) noFaults (Scenario.at_ (Scenario.T + 600000))
    (Scenario.request "localhost:3000") Scenario.challenged
  = (Failure 400
       "Invalid signature. The message was not signed by the claimed address.",
     Scenario.challenged).
Proof. vm_compute. reflexivity. Qed.

End ExpiryScenario.

Section ExpiryInstant.

Import Siwe IronSession VerifyRoute.

Variable parse : string -> Exc Viem.SiweMessage.
Variable verifyHash :
  Viem.PublicClient -> string -> string -> string -> Exc bool.

Local Abbreviation api := (Viem.specSiweApi parse verifyHash).

(** C4, the code at the instant of expiry: when the verification and the
    diagnosis both read the clock at exactly expirationTime, for a request
    that reaches verification with the expected domain and nonce, a
    notBefore that has passed, an address and a chainId, the verifier of the
    spec rejects ([now >= expirationTime]) whatever the signature, but the
    diagnosis tests [expirationTime < now], passes every check and answers
    the invalid-signature error, not the expired-message error. *)
Theorem expiry_instant_misdiagnosed (io : Faults) (clock : Clock)
    (request : NextRequest) (cookie : SiweSessionData)
    (message signature n d a : string) (c e : Z) (m : Viem.SiweMessage) :
  wellShaped request message signature ->
  loadFails io = false ->
  nonce cookie = Some n -> n <> "" ->
  host request = Some d -> d <> "" ->
  parse message = Returns m ->
  Viem.domain m = Some d -> Viem.nonce m = Some n ->
  Viem.address m = Some a -> a <> "" ->
  Viem.chainId m = Some c -> c <> 0 ->
  (forall nb, Viem.notBefore m = Some nb -> nb <= e) ->
  Viem.expirationTime m = Some e ->
  verifyTime clock = e -> diagnoseTime clock = e ->
  POST (api := api) io clock request cookie
  = (Failure 400
       "Invalid signature. The message was not signed by the claimed address.",
     cookie)
  /\ fst (POST (api := api) io clock request cookie)
     <> Failure 400 "Message has expired. Please sign a new message.".
Proof.
  intros Hshape Hl Hn Hnne Hh Hdne Hp Hdom Hnonce Ha Hane Hc Hcne Hnb He
    Hvt Hdt.
  assert (Hpost : POST (api := api) io clock request cookie
                  = (Failure 400
                       "Invalid signature. The message was not signed by the claimed address.",
                     cookie)).
  { rewrite (POST_past_nonce (api := api) io clock request cookie
               _ _ _ Hshape Hl Hn Hnne).
    unfold verifyAndPromote. simpl. rewrite Hp.
    assert (Ht : Js.truthy (host request) = Some d) by now apply truthy_Some.
    rewrite Ht.
    assert (Hv : Viem.specVerifySiweMessage parse verifyHash
                   (getPublicClientForChain (Viem.chainId m))
                   {| Viem.message := message; Viem.signature := signature;
                      Viem.expectedDomain := d; Viem.expectedNonce := n;
                      Viem.time := verifyTime clock |} = Returns false).
    { unfold Viem.specVerifySiweMessage. simpl. rewrite Hp, Ha.
      unfold Viem.validateSiweMessage. simpl. rewrite He, Hvt, Z.leb_refl.
      now rewrite !andb_false_r. }
    rewrite Hv. unfold getVerificationErrorMessage.
    apply strictNe_false in Hdom, Hnonce.
    rewrite Hdom, Hnonce, He, Hdt, Z.ltb_irrefl.
    assert (Hlater : match Viem.notBefore m with
                     | Some nb => Z.gtb nb e
                     | None => false
                     end = false).
    { destruct (Viem.notBefore m) as [nb|] eqn:Enb; [|reflexivity].
      rewrite Z.gtb_ltb. apply Z.ltb_ge. now apply Hnb. }
    rewrite Hlater, Ha, Hc. simpl.
    apply String.eqb_neq in Hane. apply Z.eqb_neq in Hcne.
    now rewrite Hane, Hcne. }
  rewrite Hpost. split; [reflexivity | discriminate].
Qed.

End ExpiryInstant.

Section ExpiryInstantScenario.

Import Siwe IronSession VerifyRoute.

Lemma expiry_instant_misdiagnosed_witness :
  POST (api := Scenario.api) noFaults (Scenario.at_ (Scenario.T + 600000))
    (Scenario.request "localhost:3000") Scenario.challenged
  = (Failure 400
       "Invalid signature. The message was not signed by the claimed address.",
     Scenario.challenged).
Proof.
  refine (proj1
    (expiry_instant_misdiagnosed Scenario.parse Scenario.verifyHash noFaults
       (Scenario.at_ (Scenario.T + 600000))
       (Scenario.request "localhost:3000") Scenario.challenged
       Scenario.text (Scenario.signed Scenario.signer Scenario.text)
       "n1" "localhost:3000" Scenario.signer 1 (Scenario.T + 600000)
       Scenario.parsed _ _ _ _ _ _ _ _ _ _ _ _ _ _ _ _ _));
    try reflexivity; try discriminate.
  eexists. split; [reflexivity|]. repeat split; discriminate.
Defined.

End ExpiryInstantScenario.

(** ** The oracle the verify route uses *)

Section ChosenClient.

Import Siwe IronSession VerifyRoute.

Context `{api : Viem.SiweApi}.

(** The answer of the verify route is the verdict of [verifySiweMessage] on
    the client chosen for the parsed message's chainId: a success needs that
    verdict to be true, any other verdict is a failure that keeps the cookie,
    and a true verdict is a success once nonce and Host are non-empty and the
    store works. *)
Lemma POST_verdict_of_chosen_client (io : Faults) (clock : Clock)
    (request : NextRequest) (cookie : SiweSessionData)
    (message signature n d : string) (m : Viem.SiweMessage) :
  wellShaped request message signature ->
  nonce cookie = Some n ->
  host request = Some d ->
  Viem.parseSiweMessage message = Returns m ->
  let verdict :=
    Viem.verifySiweMessage (getPublicClientForChain (Viem.chainId m))
      {| Viem.message := message; Viem.signature := signature;
         Viem.expectedDomain := d; Viem.expectedNonce := n;
         Viem.time := verifyTime clock |} in
  (forall a c t cookie',
     POST io clock request cookie = (Success a c t, cookie') ->
     verdict = Returns true)
  /\ (verdict <> Returns true ->
      exists status error,
        POST io clock request cookie = (Failure status error, cookie))
  /\ (verdict = Returns true ->
      n <> "" -> d <> "" -> loadFails io = false -> saveFails io = false ->
      POST io clock request cookie
      = (Success (Viem.address m) (Viem.chainId m) (signInTime clock),
         {| address := Viem.address m; chainId := Viem.chainId m;
            nonce := None; isLoggedIn := true;
            signedInAt := Some (signInTime clock) |})).
Proof.
  intros Hshape Hn Hh Hp. cbv zeta.
  assert (Hneeds : forall a c t cookie',
            POST io clock request cookie = (Success a c t, cookie') ->
            Viem.verifySiweMessage (getPublicClientForChain (Viem.chainId m))
              {| Viem.message := message; Viem.signature := signature;
                 Viem.expectedDomain := d; Viem.expectedNonce := n;
                 Viem.time := verifyTime clock |} = Returns true).
  { intros a c t cookie' Hok.
    destruct (POST_success_inv _ _ _ _ _ _ _ _ Hok)
      as (message' & signature' & n' & d' & m' & Hshape' & _ & _ & Hn' & _
          & Hp' & Hh' & _ & Hv & _).
    destruct (wellShaped_unique _ _ _ _ _ Hshape Hshape') as [<- <-].
    rewrite Hn in Hn'. injection Hn' as <-.
    rewrite Hh in Hh'. injection Hh' as <-.
    rewrite Hp in Hp'. injection Hp' as <-.
    exact Hv. }
  split; [exact Hneeds|]. split.
  - intros Hno.
    destruct (POST io clock request cookie) as [r cookie'] eqn:HP.
    destruct r as [a c t|status error].
    + exfalso. apply Hno. now apply (Hneeds a c t cookie').
    + exists status, error.
      pose proof (POST_failure_keeps io clock request cookie status error)
        as Hkeep.
      rewrite HP in Hkeep. simpl in Hkeep. now rewrite Hkeep.
  - intros Hyes Hnne Hdne Hl Hs.
    now apply (POST_success io clock request cookie message signature n d m).
Qed.

End ChosenClient.

Section OracleSelection.

Import Siwe IronSession VerifyRoute.

(** C9: the client handed to signature verification is mainnet's when the
    message has no chainId and when its chainId is not a key of
    [SUPPORTED_CHAINS]; for a supported chainId it is the client of the
    chain stored under that key, whose id is that chainId; the keys are
    exactly the ids of the ten imported chains.  That client is the oracle
    used: the route's answer is the verdict of [verifySiweMessage] on it (a
    success needs a true verdict there, any other verdict there is a
    failure, a true verdict there is a success when nonce and Host are
    non-empty and the store works), and what the verifier would say on any
    other client does not matter. *)
Theorem oracle_selection :
  getPublicClientForChain None = Viem.createPublicClient Viem.mainnet
  /\ (forall n, SUPPORTED_CHAINS !! n = None ->
        getPublicClientForChain (Some n)
        = Viem.createPublicClient Viem.mainnet)
  /\ (forall n c, SUPPORTED_CHAINS !! n = Some c ->
        getPublicClientForChain (Some n) = Viem.createPublicClient c
        /\ Viem.id c = n)
  /\ (forall n c, SUPPORTED_CHAINS !! n = Some c <-> Viem.id c = n)
  /\ (forall parse v1 v2 io clock request cookie,
        (forall params m,
           parse (Viem.message params) = Returns m ->
           v1 (getPublicClientForChain (Viem.chainId m)) params
           = v2 (getPublicClientForChain (Viem.chainId m)) params) ->
        POST (api := {| Viem.parseSiweMessage := parse;
                        Viem.verifySiweMessage := v1 |})
          io clock request cookie
        = POST (api := {| Viem.parseSiweMessage := parse;
                          Viem.verifySiweMessage := v2 |})
            io clock request cookie)
  /\ (forall (api : Viem.SiweApi) io clock request cookie
             message signature n d m,
        wellShaped request message signature ->
        nonce cookie = Some n ->
        host request = Some d ->
        Viem.parseSiweMessage message = Returns m ->
        let verdict :=
          Viem.verifySiweMessage (getPublicClientForChain (Viem.chainId m))
            {| Viem.message := message; Viem.signature := signature;
               Viem.expectedDomain := d; Viem.expectedNonce := n;
               Viem.time := verifyTime clock |} in
        (forall a c t cookie',
           POST io clock request cookie = (Success a c t, cookie') ->
           verdict = Returns true)
        /\ (verdict <> Returns true ->
            exists status error,
              POST io clock request cookie = (Failure status error, cookie))
        /\ (verdict = Returns true ->
            n <> "" -> d <> "" ->
            loadFails io = false -> saveFails io = false ->
            POST io clock request cookie
            = (Success (Viem.address m) (Viem.chainId m) (signInTime clock),
               {| address := Viem.address m; chainId := Viem.chainId m;
                  nonce := None; isLoggedIn := true;
                  signedInAt := Some (signInTime clock) |}))).
Proof.
  split; [reflexivity|].
  split; [exact client_of_unsupported|].
  split.
  { intros n c Hn. split;
      [now apply client_of_supported | now apply supported_chain_inv]. }
  split.
  { intros n c. split; [apply supported_chain_inv|].
    intros <-. apply supported_chain_by_id. }
  split; [exact POST_uses_chosen_client|].
  intros api io clock request cookie message signature n d m.
  apply POST_verdict_of_chosen_client.
Qed.

(** With a verifier that says yes on mainnet's client only, a message for
    the unsupported chain 5 is accepted and one for the supported chain 137
    is refused. *)
Lemma oracle_selection_witness :
  getPublicClientForChain (Some 5) = Viem.createPublicClient Viem.mainnet
  /\ getPublicClientForChain (Some 137) = Viem.createPublicClient Viem.polygon
  /\ fst (POST (api := OracleScenario.mainnetOnly 5) noFaults
            (Scenario.at_ Scenario.T) (Scenario.request "localhost:3000")
            Scenario.challenged)
     = Success (Some Scenario.signer) (Some 5) Scenario.T
  /\ exists status error,
       POST (api := OracleScenario.mainnetOnly 137) noFaults
         (Scenario.at_ Scenario.T) (Scenario.request "localhost:3000")
         Scenario.challenged
       = (Failure status error, Scenario.challenged).
Proof.
  destruct oracle_selection
    as (_ & Hunsupported & Hsupported & _ & _ & Hverdict).
  split; [apply Hunsupported; reflexivity|].
  split; [apply (Hsupported 137 Viem.polygon); reflexivity|].
  split.
  - rewrite (proj2 (proj2
      (Hverdict (OracleScenario.mainnetOnly 5) noFaults
         (Scenario.at_ Scenario.T) (Scenario.request "localhost:3000")
         Scenario.challenged Scenario.text
         (Scenario.signed Scenario.signer Scenario.text)
         "n1" "localhost:3000" (OracleScenario.parsedOn 5)
         (scenario_request_wellShaped "localhost:3000")
         eq_refl eq_refl eq_refl)));
      try reflexivity; discriminate.
  - refine (proj1 (proj2
      (Hverdict (OracleScenario.mainnetOnly 137) noFaults
         (Scenario.at_ Scenario.T) (Scenario.request "localhost:3000")
         Scenario.challenged Scenario.text
         (Scenario.signed Scenario.signer Scenario.text)
         "n1" "localhost:3000" (OracleScenario.parsedOn 137)
         (scenario_request_wellShaped "localhost:3000")
         eq_refl eq_refl eq_refl)) _).
    vm_compute. discriminate.
Defined.

End OracleSelection.

(** ** Round trip *)

Section RoundTrip.

Import Siwe IronSession VerifyRoute.

Variable parse : string -> Exc Viem.SiweMessage.
Variable verifyHash :
  Viem.PublicClient -> string -> string -> string -> Exc bool.

Local Abbreviation api := (Viem.specSiweApi parse verifyHash).

(** C3: on any session, with no store fault: the nonce route issues
    [generated]; a message that parses to that nonce, the request's host as
    domain, an expirationTime after the time of verification (and no
    notBefore), the signer's address and a chainId, with a signature the
    oracle of that chain accepts for the signer, is verified successfully
    with the signer's address and the message's chainId; and the
    check-session route then answers [isLoggedIn: true] with that address,
    chainId and the signedInAt the verify response carried. *)
Theorem round_trip (start : SiweSessionData) (generated : string)
    (clock : Clock) (request : NextRequest) (message signature : string)
    (m : Viem.SiweMessage) (signer domain : string) (chain e : Z) :
  generated <> "" ->
  wellShaped request message signature ->
  host request = Some domain -> domain <> "" ->
  parse message = Returns m ->
  Viem.nonce m = Some generated ->
  Viem.domain m = Some domain ->
  Viem.address m = Some signer -> signer <> "" ->
  Viem.chainId m = Some chain ->
  Viem.expirationTime m = Some e -> verifyTime clock < e ->
  Viem.notBefore m = None ->
  verifyHash (getPublicClientForChain (Some chain)) signer message signature
    = Returns true ->
  let issued := NonceRoute.GET noFaults generated start in
  let verified := POST (api := api) noFaults clock request (snd issued) in
  fst issued = NonceRoute.Nonce generated
  /\ fst verified = Success (Some signer) (Some chain) (signInTime clock)
  /\ SessionRoute.GET noFaults (snd verified)
     = {| address := Some signer; chainId := Some chain; nonce := None;
          isLoggedIn := true; signedInAt := Some (signInTime clock) |}.
Proof.
  intros Hgen Hshape Hhost Hdne Hparse Hnonce Hdom Haddr Hsne Hchain He Hlive
    Hnb Hsig.
  cbv zeta. split; [reflexivity|].
  assert (Hv : Viem.verifySiweMessage (SiweApi := api)
                 (getPublicClientForChain (Viem.chainId m))
                 {| Viem.message := message; Viem.signature := signature;
                    Viem.expectedDomain := domain;
                    Viem.expectedNonce := generated;
                    Viem.time := verifyTime clock |} = Returns true).
  { simpl. apply spec_verify_accepts. exists m, signer. simpl.
    repeat split; try assumption.
    - apply validate_spec. simpl. repeat split; try assumption.
      + intros nb. rewrite Hnb. discriminate.
      + intros e'. rewrite He. now intros [= <-].
    - now rewrite Hchain. }
  rewrite (POST_success (api := api) noFaults clock request
             (snd (NonceRoute.GET noFaults generated start))
             message signature generated domain m
             Hshape eq_refl eq_refl eq_refl Hgen Hparse Hhost Hdne Hv).
  simpl. rewrite Haddr, Hchain. split; [reflexivity|].
  unfold SessionRoute.GET. simpl.
  apply String.eqb_neq in Hsne. rewrite Hsne. reflexivity.
Qed.

End RoundTrip.

Section RoundTripScenario.

Import Siwe IronSession VerifyRoute.

Lemma round_trip_witness :
  SessionRoute.GET noFaults
    (snd (POST (api := Scenario.api) noFaults (Scenario.at_ (Scenario.T + 1))
            (Scenario.request "localhost:3000")
            (snd (NonceRoute.GET noFaults "n1" defaultSession))))
  = {| address := Some Scenario.signer; chainId := Some 1; nonce := None;
       isLoggedIn := true; signedInAt := Some (Scenario.T + 1) |}.
Proof.
  refine (proj2 (proj2
    (round_trip Scenario.parse Scenario.verifyHash defaultSession "n1"
       (Scenario.at_ (Scenario.T + 1)) (Scenario.request "localhost:3000")
       Scenario.text (Scenario.signed Scenario.signer Scenario.text)
       Scenario.parsed Scenario.signer "localhost:3000" 1
       (Scenario.T + 600000) _ _ _ _ _ _ _ _ _ _ _ _ _ _)));
    try reflexivity; try discriminate.
  eexists. split; [reflexivity|]. repeat split; discriminate.
Defined.

End RoundTripScenario.

(** ** Identity fields and the login flag *)

Section Identity.

Import Siwe IronSession VerifyRoute Server.

Context `{api : Viem.SiweApi}.

(** What each call can do to the cookie: nothing; or, for the nonce route,
    store the nonce and reset the flag, the identity fields staying; or, for
    a successful verification, write flag, identity fields and timestamp
    together and clear the nonce; or, for destruction, empty the record. *)
Lemma step_cases (call : Call) (cookie : SiweSessionData) :
  step call cookie = cookie
  \/ (exists io generated,
        call = RequestNonce io generated
        /\ step call cookie =
             {| address := address cookie; chainId := chainId cookie;
                nonce := Some generated; isLoggedIn := false;
                signedInAt := signedInAt cookie |})
  \/ (exists io clock request message signature n d m,
        call = Verify io clock request
        /\ wellShaped request message signature
        /\ Viem.parseSiweMessage message = Returns m
        /\ Viem.verifySiweMessage (getPublicClientForChain (Viem.chainId m))
             {| Viem.message := message; Viem.signature := signature;
                Viem.expectedDomain := d; Viem.expectedNonce := n;
                Viem.time := verifyTime clock |} = Returns true
        /\ step call cookie =
             {| address := Viem.address m; chainId := Viem.chainId m;
                nonce := None; isLoggedIn := true;
                signedInAt := Some (signInTime clock) |})
  \/ (exists io, call = Destroy io /\ step call cookie = defaultSession).
Proof.
  destruct call as [io generated|io clock request|io|io]; simpl.
  - unfold NonceRoute.GET, getIronSession, save.
    destruct (loadFails io); [now left|].
    destruct (saveFails io); [now left|].
    right; left. now exists io, generated.
  - destruct (POST io clock request cookie) as [r cookie'] eqn:HP.
    destruct r as [a c t|status error].
    + right; right; left.
      destruct (POST_success_inv _ _ _ _ _ _ _ _ HP)
        as (message & signature & n & d & m & Hshape & _ & _ & _ & _ & Hp
            & _ & _ & Hv & _ & _ & _ & ->).
      exists io, clock, request, message, signature, n, d, m.
      repeat split; assumption.
    + left. pose proof (POST_failure_keeps io clock request cookie
                          status error) as Hkeep.
      rewrite HP in Hkeep. now apply Hkeep.
  - now left.
  - unfold SessionRoute.DELETE, getIronSession, destroy.
    destruct (loadFails io); [now left|].
    destruct (saveFails io); [now left|].
    right; right; right. now exists io.
Qed.

(** The guarantee the verify route relies on at step 6: a message the
    verifier accepts has an address and a chainId. *)
Hypothesis accepted_has_fields :
  forall client params m,
    Viem.parseSiweMessage (Viem.message params) = Returns m ->
    Viem.verifySiweMessage client params = Returns true ->
    is_Some (Viem.address m) /\ is_Some (Viem.chainId m).

Lemma step_preserves_identified (call : Call) (cookie : SiweSessionData) :
  (isLoggedIn cookie = true -> identified cookie) ->
  isLoggedIn (step call cookie) = true -> identified (step call cookie).
Proof.
  intros IH.
  destruct (step_cases call cookie)
    as [->|[(io & g & _ & ->)|[(io & clock & request & message & signature
                                 & n & d & m & _ & _ & Hp & Hv & ->)
                              |(io & _ & ->)]]]; simpl.
  - exact IH.
  - discriminate.
  - intros _.
    pose proof (fun H => accepted_has_fields _ _ m H Hv) as Hf.
    destruct (Hf Hp) as [Ha Hc].
    repeat split; simpl; eauto.
  - discriminate.
Qed.

(** C2, as the code has it: in every reachable session record a true
    [isLoggedIn] comes with address, chainId and signedInAt set (given that
    the verifier accepts only messages that carry address and chainId); a
    successful verification writes flag, identity fields and timestamp in
    one save, and destruction empties the whole record; nonce issuance
    resets the flag and stores the nonce but keeps the identity fields and
    the timestamp that are in the record. *)
Theorem logged_in_is_identified :
  (forall cookie,
     reachable cookie -> isLoggedIn cookie = true ->
     is_Some (address cookie) /\ is_Some (chainId cookie)
     /\ is_Some (signedInAt cookie))
  /\ (forall io generated cookie,
        step (RequestNonce io generated) cookie = cookie
        \/ step (RequestNonce io generated) cookie =
             {| address := address cookie; chainId := chainId cookie;
                nonce := Some generated; isLoggedIn := false;
                signedInAt := signedInAt cookie |})
  /\ (forall io clock request cookie,
        step (Verify io clock request) cookie = cookie
        \/ exists a c,
             step (Verify io clock request) cookie =
               {| address := Some a; chainId := Some c; nonce := None;
                  isLoggedIn := true;
                  signedInAt := Some (signInTime clock) |})
  /\ (forall io cookie,
        step (Destroy io) cookie = cookie
        \/ step (Destroy io) cookie = defaultSession).
Proof.
  split; [|split; [|split]].
  - intros cookie Hreach. induction Hreach as [|call cookie _ IH].
    + discriminate.
    + now apply step_preserves_identified.
  - intros io generated cookie.
    destruct (step_cases (RequestNonce io generated) cookie)
      as [H|[(io' & g & [= <- <-] & H)
            |[(? & ? & ? & ? & ? & ? & ? & ? & [=] & _)|(? & [=] & _)]]];
      [now left | now right].
  - intros io clock request cookie.
    destruct (step_cases (Verify io clock request) cookie)
      as [H|[(? & ? & [=] & _)
            |[(io' & clock' & request' & message & signature & n & d & m
               & [= <- <- <-] & _ & Hp & Hv & H)|(? & [=] & _)]]];
      [now left|].
    right.
    pose proof (fun H => accepted_has_fields _ _ m H Hv) as Hf.
    destruct (Hf Hp) as [[a Ha] [c Hc]].
    exists a, c. now rewrite H, Ha, Hc.
  - intros io cookie.
    destruct (step_cases (Destroy io) cookie)
      as [H|[(? & ? & [=] & _)
            |[(? & ? & ? & ? & ? & ? & ? & ? & [=] & _)|(? & _ & H)]]];
      [now left | now right].
Qed.

Lemma run_app (calls calls' : list Call) (cookie : SiweSessionData) :
  run (calls ++ calls') cookie = run calls' (run calls cookie).
Proof. unfold run. apply foldl_app. Qed.

Lemma run_reachable (calls : list Call) (cookie : SiweSessionData) :
  reachable cookie -> reachable (run calls cookie).
Proof.
  revert cookie. induction calls as [|call calls IH]; intros cookie Hr.
  - exact Hr.
  - apply IH. now constructor.
Qed.

End Identity.

Section IdentityScenario.

Import Siwe IronSession VerifyRoute Server.

Lemma logged_in_is_identified_witness :
  identified Scenario.authenticated.
Proof.
  refine (proj1 (logged_in_is_identified (api := Scenario.api) _)
            Scenario.authenticated _ _).
  - intros client params m Hp _. simpl in Hp. unfold Scenario.parse in Hp.
    destruct (String.eqb (Viem.message params) Scenario.text);
      [|discriminate].
    injection Hp as <-. split; eexists; reflexivity.
  - exact (reachable_step (api := Scenario.api)
             (Verify noFaults (Scenario.at_ (Scenario.T + 1))
                (Scenario.request "localhost:3000")) _
             (reachable_step (api := Scenario.api)
                (RequestNonce noFaults "n1") _
                (reachable_first_visit (api := Scenario.api)))).
  - reflexivity.
Defined.

(** C2 as stated fails: requesting a nonce after a login resets the flag
    only, so a reachable record has [isLoggedIn] false while address,
    chainId and signedInAt of the earlier login are still set. *)
Lemma identity_outlives_login :
  let cookie :=
    run (api := Scenario.api)
      [RequestNonce noFaults "n1";
       Verify noFaults (Scenario.at_ (Scenario.T + 1))
         (Scenario.request "localhost:3000");
       RequestNonce noFaults "n2"] defaultSession in
  reachable (api := Scenario.api) cookie
  /\ isLoggedIn cookie = false
  /\ address cookie = Some Scenario.signer
  /\ chainId cookie = Some 1
  /\ signedInAt cookie = Some (Scenario.T + 1).
Proof.
  cbv zeta. split.
  - apply run_reachable. constructor.
  - vm_compute. repeat split.
Qed.

End IdentityScenario.

(** ** The client hook's auto-logout *)

Section AutoLogout.

Import UseSiwe.

Lemma hasSeenAfter_app (history : list Account) (account : Account) :
  hasSeenAfter (history ++ [account])
  = trackWalletConnected account (hasSeenAfter history).
Proof. unfold hasSeenAfter. now rewrite foldl_app. Qed.

(** The ref is true exactly when some earlier render saw the wallet
    connected. *)
Lemma hasSeenAfter_spec (history : list Account) :
  hasSeenAfter history = true <->
  exists account, In account history /\ isConnected account = true.
Proof.
  induction history as [|account history IH] using rev_ind.
  - split; [discriminate | intros (a & [] & _)].
  - rewrite hasSeenAfter_app. unfold trackWalletConnected.
    destruct (isConnected account) eqn:Hc.
    + split; [|reflexivity]. intros _. exists account.
      split; [apply in_or_app; right; now left | exact Hc].
    + rewrite IH. split.
      * intros (a & Hin & Ha). exists a.
        split; [apply in_or_app; now left | exact Ha].
      * intros (a & Hin & Ha). exists a. split; [|exact Ha].
        apply in_app_or in Hin as [Hin|[<-|[]]]; [exact Hin | congruence].
Qed.

Lemma signOut_confirmed (state : SiweState) :
  signOut (Responded true) state = signedOutState.
Proof. reflexivity. Qed.

Lemma signOut_unconfirmed (outcome : FetchOutcome) (state : SiweState) :
  outcome <> Responded true ->
  isSignedIn (signOut outcome state) = isSignedIn state
  /\ address (signOut outcome state) = address state
  /\ is_Some (error (signOut outcome state)).
Proof.
  intros Hne. destruct outcome as [[]|e]; [contradiction| |];
    simpl; repeat split; eauto.
Qed.

Lemma address_mismatch_triggers (account : Account) (state : SiweState)
    (hasSeen : bool) (bound connected : string) :
  isSignedIn state = true ->
  address state = Some bound -> bound <> "" ->
  connectedAddress account = Some connected -> connected <> "" ->
  Js.toLowerCase connected <> Js.toLowerCase bound ->
  In AddressChanged (autoLogout account state hasSeen).
Proof.
  intros Hin Hb Hbne Hc Hcne Hdiff. unfold autoLogout.
  assert (Htb : Js.truthy (address state) = Some bound)
    by now apply truthy_Some.
  assert (Htc : Js.truthy (connectedAddress account) = Some connected)
    by now apply truthy_Some.
  apply String.eqb_neq in Hdiff. rewrite Hin, Htb, Htc, Hdiff.
  simpl. now left.
Qed.

Lemma disconnect_triggers (account : Account) (state : SiweState) :
  isSignedIn state = true -> isConnected account = false ->
  In WalletDisconnected (autoLogout account state true).
Proof.
  intros Hin Hc. unfold autoLogout. rewrite Hin, Hc.
  apply in_or_app. right. simpl. now left.
Qed.

(** A cycle whose last [signOut()] got its DELETE confirmed ends signed
    out; a cycle none of whose DELETEs was confirmed ends as signed in as
    it began, bound to the same address. *)
Lemma signOuts_confirmed_last (deleted : Trigger -> FetchOutcome)
    (calls : list Trigger) (last : Trigger) (state : SiweState) :
  deleted last = Responded true ->
  foldl (fun s trigger => signOut (deleted trigger) s) state (calls ++ [last])
  = signedOutState.
Proof. intros Hok. rewrite foldl_app. simpl. now rewrite Hok. Qed.

Lemma signOuts_unconfirmed (deleted : Trigger -> FetchOutcome)
    (calls : list Trigger) (state : SiweState) :
  (forall trigger, deleted trigger <> Responded true) ->
  isSignedIn (foldl (fun s trigger => signOut (deleted trigger) s) state calls)
    = isSignedIn state
  /\ address (foldl (fun s trigger => signOut (deleted trigger) s) state calls)
     = address state.
Proof.
  intros Hfail. revert state.
  induction calls as [|trigger calls IH]; intros state; simpl.
  - now split.
  - destruct (IH (signOut (deleted trigger) state)) as [-> ->].
    destruct (signOut_unconfirmed _ state (Hfail trigger)) as (-> & -> & _).
    now split.
Qed.

End AutoLogout.

Section Reconciliation.

Import UseSiwe.

Lemma reconcile_calls (deleted : Trigger -> FetchOutcome)
    (history : list Account) (account : Account) (state : SiweState) :
  fst (reconcile deleted account (state, hasSeenAfter history))
  = foldl (fun s trigger => signOut (deleted trigger) s) state
      (autoLogout account state (hasSeenAfter (history ++ [account]))).
Proof. unfold reconcile. simpl. now rewrite hasSeenAfter_app. Qed.

(** C8, as the code has it: in a render where the state is signed in, the
    auto-logout effect calls [signOut()] when the connected address and the
    bound address are both present and differ after lower-casing, and when
    the wallet is not connected but an earlier render saw it connected.
    The cycle ends in the signed-out defaults when the DELETE of every call
    is confirmed; when none is confirmed the state stays signed in, bound
    to the same address, and shows an error if a call was made. *)
Theorem auto_logout (deleted : Trigger -> FetchOutcome)
    (history : list Account) (account : Account) (state : SiweState) :
  isSignedIn state = true ->
  let calls := autoLogout account state (hasSeenAfter (history ++ [account])) in
  let after := fst (reconcile deleted account (state, hasSeenAfter history)) in
  (forall bound connected,
     address state = Some bound -> bound <> "" ->
     connectedAddress account = Some connected -> connected <> "" ->
     Js.toLowerCase connected <> Js.toLowerCase bound ->
     In AddressChanged calls)
  /\ (isConnected account = false ->
      (exists earlier, In earlier history /\ isConnected earlier = true) ->
      In WalletDisconnected calls)
  /\ (calls <> [] -> (forall trigger, deleted trigger = Responded true) ->
      after = signedOutState)
  /\ ((forall trigger, deleted trigger <> Responded true) ->
      isSignedIn after = true /\ address after = address state
      /\ (calls <> [] -> is_Some (error after))).
Proof.
  intros Hin. cbv zeta. rewrite reconcile_calls.
  set (calls := autoLogout account state (hasSeenAfter (history ++ [account]))).
  split; [|split; [|split]].
  - intros bound connected Hb Hbne Hc Hcne Hdiff.
    now apply (address_mismatch_triggers _ _ _ bound connected).
  - intros Hoff Hseen. unfold calls. rewrite hasSeenAfter_app.
    unfold trackWalletConnected. rewrite Hoff.
    apply hasSeenAfter_spec in Hseen. rewrite Hseen.
    now apply disconnect_triggers.
  - intros Hcalls Hok.
    destruct (exists_last Hcalls) as (init & last & ->).
    now apply signOuts_confirmed_last.
  - intros Hfail.
    destruct (signOuts_unconfirmed deleted calls state Hfail) as [-> ->].
    repeat split; [exact Hin|].
    intros Hcalls. destruct (exists_last Hcalls) as (init & last & ->).
    rewrite foldl_app. simpl.
    now apply signOut_unconfirmed.
Qed.

Lemma auto_logout_witness :
  fst (reconcile (fun _ => Responded true)
         {| connectedAddress := Some "0xdef2"; isConnected := true |}
         ({| address := Some "0xAbC1"; chainId := Some 1; isSignedIn := true;
             isLoading := false; error := None; siweMessage := None;
             signedInAt := Some Scenario.T |}, hasSeenAfter []))
  = signedOutState.
Proof.
  refine (proj1 (proj2 (proj2
    (auto_logout (fun _ => Responded true) []
       {| connectedAddress := Some "0xdef2"; isConnected := true |}
       {| address := Some "0xAbC1"; chainId := Some 1; isSignedIn := true;
          isLoading := false; error := None; siweMessage := None;
          signedInAt := Some Scenario.T |} _))) _ _).
  - reflexivity.
  - vm_compute. discriminate.
  - reflexivity.
Defined.

(** C8 as stated fails in its last part: when the DELETE that [signOut()]
    issues is answered with a failure, the state stays signed in and bound
    to the address the wallet no longer has; none of the effect's
    dependencies changed, so no further cycle is started. *)
Lemma mismatch_survives_failed_destroy :
  let state :=
    {| address := Some "0xAbC1"; chainId := Some 1; isSignedIn := true;
       isLoading := false; error := None; siweMessage := None;
       signedInAt := Some Scenario.T |} in
  let account :=
    {| connectedAddress := Some "0xdef2"; isConnected := true |} in
  let after := reconcile (fun _ => Responded false) account (state, true) in
  autoLogout account state true = [AddressChanged]
  /\ Js.toLowerCase "0xdef2" <> Js.toLowerCase "0xAbC1"
  /\ isSignedIn (fst after) = true
  /\ address (fst after) = Some "0xAbC1"
  /\ error (fst after) = Some "Failed to sign out"
  /\ fst (reconcile (fun _ => Responded false) account after)
     = fst after.
Proof.
  vm_compute. repeat split. discriminate.
Qed.

(** The comparison ignores case: the checksummed and the lower-case form
    of one address start no sign-out. *)
Example same_address_other_case :
  autoLogout {| connectedAddress := Some "0xabc1"; isConnected := true |}
    {| address := Some "0xAbC1"; chainId := Some 1; isSignedIn := true;
       isLoading := false; error := None; siweMessage := None;
       signedInAt := Some Scenario.T |} true
  = [].
Proof. reflexivity. Qed.

End Reconciliation.


(** * Further properties of the sources *)

(** ** utils/siwe.ts: the display helpers *)

Section Display.

Import Siwe.

Lemma string_of_uint_first (d : Decimal.uint) :
  exists c rest,
    NilZero.string_of_uint d = String c rest /\ c <> "E"%char.
Proof.
  destruct d; simpl; eexists; eexists; (split; [reflexivity | discriminate]).
Qed.

(** A non-negative integer prints as a string that starts with a digit. *)
Lemma numberToString_first (n : Z) :
  0 <= n ->
  exists c rest, Js.numberToString n = String c rest /\ c <> "E"%char.
Proof.
  intros Hn. unfold Js.numberToString.
  destruct n as [|p|p]; [| |lia]; apply string_of_uint_first.
Qed.

(** The relative time names a unit only from one of it on: below a minute,
    and for timestamps in the future, it is [just now]; minutes run from 1
    to 59, hours from 1 to 23, days from 1; [hour] and [day] take their
    plural [s] exactly from 2 on, [min] never does. *)
Theorem time_ago_units (now timestamp : Z) :
  let seconds := (now - timestamp) / 1000 in
  (seconds < 60 -> getTimeAgo now timestamp = "just now")
  /\ (60 <= seconds < 3600 ->
      1 <= seconds / 60 <= 59
      /\ getTimeAgo now timestamp
         = Js.numberToString (seconds / 60) ++ " min ago")
  /\ (3600 <= seconds < 86400 ->
      1 <= seconds / 3600 <= 23
      /\ getTimeAgo now timestamp
         = Js.numberToString (seconds / 3600)
           ++ (if Z.eqb (seconds / 3600) 1 then " hour ago" else " hours ago"))
  /\ (86400 <= seconds ->
      1 <= seconds / 86400
      /\ getTimeAgo now timestamp
         = Js.numberToString (seconds / 86400)
           ++ (if Z.eqb (seconds / 86400) 1 then " day ago" else " days ago")).
Proof.
  cbv zeta. unfold getTimeAgo.
  set (seconds := (now - timestamp) / 1000).
  repeat split.
  - intros H. apply Z.ltb_lt in H. now rewrite H.
  - apply Z.div_le_lower_bound; lia.
  - apply Z.lt_succ_r, Z.div_lt_upper_bound; lia.
  - destruct H as [Hlo Hhi].
    apply Z.ltb_ge in Hlo. apply Z.ltb_lt in Hhi. now rewrite Hlo, Hhi.
  - apply Z.div_le_lower_bound; lia.
  - apply Z.lt_succ_r, Z.div_lt_upper_bound; lia.
  - destruct H as [Hlo Hhi].
    assert (H1 : 1 <= seconds / 3600) by (apply Z.div_le_lower_bound; lia).
    assert (Z.ltb seconds 60 = false) as -> by (apply Z.ltb_ge; lia).
    assert (Z.ltb seconds 3600 = false) as -> by (apply Z.ltb_ge; lia).
    apply Z.ltb_lt in Hhi. rewrite Hhi.
    destruct (Z.eqb_spec (seconds / 3600) 1) as [->|Hne]; [reflexivity|].
    assert (Z.gtb (seconds / 3600) 1 = true) as ->
      by (apply Z.gtb_lt; lia).
    reflexivity.
  - apply Z.div_le_lower_bound; lia.
  - assert (H1 : 1 <= seconds / 86400) by (apply Z.div_le_lower_bound; lia).
    assert (Z.ltb seconds 60 = false) as -> by (apply Z.ltb_ge; lia).
    assert (Z.ltb seconds 3600 = false) as -> by (apply Z.ltb_ge; lia).
    assert (Z.ltb seconds 86400 = false) as -> by (apply Z.ltb_ge; lia).
    destruct (Z.eqb_spec (seconds / 86400) 1) as [->|Hne]; [reflexivity|].
    assert (Z.gtb (seconds / 86400) 1 = true) as ->
      by (apply Z.gtb_lt; lia).
    reflexivity.
Qed.

Lemma time_ago_units_witness :
  getTimeAgo 7200000 0 = "2 hours ago".
Proof.
  refine (proj2 (proj1 (proj2 (proj2 (time_ago_units 7200000 0))) _)).
  vm_compute. split; [discriminate | reflexivity].
Defined.

Lemma remainingParts_shape (remainingMs : Z) :
  0 < remainingMs ->
  exists d h m,
    0 <= d /\ 0 <= h < 24 /\ 0 <= m < 60
    /\ d * 86400000 + h * 3600000 + m * 60000 <= remainingMs
    /\ remainingMs < d * 86400000 + h * 3600000 + m * 60000 + 60000
    /\ remainingParts remainingMs
       = ((if Z.ltb 0 d then [(Js.numberToString d ++ "d")%string] else [])
          ++ (if Z.ltb 0 h then [(Js.numberToString h ++ "h")%string] else [])
          ++ (if Z.ltb 0 m || Z.eqb d 0 && Z.eqb h 0
              then [(Js.numberToString m ++ "m")%string] else []))%list.
Proof.
  intros Hpos.
  exists (remainingMs / 86400000),
         (Z.rem remainingMs 86400000 / 3600000),
         (Z.rem remainingMs 3600000 / 60000).
  rewrite !Z.rem_mod_nonneg by lia.
  repeat split; try (Z.div_mod_to_equations; lia).
  unfold remainingParts. change (1000 * 60 * 60 * 24) with 86400000.
  change (1000 * 60 * 60) with 3600000. change (1000 * 60) with 60000.
  rewrite !Z.rem_mod_nonneg by lia.
  set (d := remainingMs / 86400000).
  set (h := (remainingMs mod 86400000) / 3600000).
  set (m := (remainingMs mod 3600000) / 60000).
  assert (Hd : 0 <= d) by (subst d; Z.div_mod_to_equations; lia).
  assert (Hh : 0 <= h) by (subst h; Z.div_mod_to_equations; lia).
  rewrite !Z.gtb_ltb.
  destruct (Z.ltb_spec 0 d), (Z.ltb_spec 0 h), (Z.ltb 0 m);
    simpl; try reflexivity;
    repeat match goal with
           | |- context [Z.eqb ?x 0] => destruct (Z.eqb_spec x 0); try lia
           end; reflexivity.
Qed.

(** While the session is live, the remaining-time display splits the time
    that is left into whole days, hours below 24 and minutes below 60,
    dropping less than a minute, and joins them with spaces; a zero is not
    shown, except [0m] when nothing else is. *)
Theorem session_time_remaining_parts (now signedInAt : Z) :
  now < signedInAt + SESSION_MAX_AGE_MS ->
  exists d h m,
    0 <= d /\ 0 <= h < 24 /\ 0 <= m < 60
    /\ d * 86400000 + h * 3600000 + m * 60000
       <= signedInAt + SESSION_MAX_AGE_MS - now
    /\ signedInAt + SESSION_MAX_AGE_MS - now
       < d * 86400000 + h * 3600000 + m * 60000 + 60000
    /\ getSessionTimeRemaining now signedInAt
       = Js.join " "
           ((if Z.ltb 0 d then [(Js.numberToString d ++ "d")%string] else [])
            ++ (if Z.ltb 0 h then [(Js.numberToString h ++ "h")%string] else [])
            ++ (if Z.ltb 0 m || Z.eqb d 0 && Z.eqb h 0
                then [(Js.numberToString m ++ "m")%string] else []))%list.
Proof.
  intros Hlive.
  assert (Hpos : 0 < signedInAt + SESSION_MAX_AGE_MS - now) by lia.
  destruct (remainingParts_shape _ Hpos)
    as (d & h & m & Hd & Hh & Hm & Hlo & Hhi & Hparts).
  exists d, h, m. repeat split; try lia.
  unfold getSessionTimeRemaining. cbv zeta.
  destruct (Z.leb_spec (signedInAt + SESSION_MAX_AGE_MS - now) 0); [lia|].
  now rewrite Hparts.
Qed.

Lemma session_time_remaining_parts_witness :
  exists d h m,
    0 <= d /\ 0 <= h < 24 /\ 0 <= m < 60
    /\ d * 86400000 + h * 3600000 + m * 60000
       <= 0 + SESSION_MAX_AGE_MS - 90000000
    /\ 0 + SESSION_MAX_AGE_MS - 90000000
       < d * 86400000 + h * 3600000 + m * 60000 + 60000
    /\ getSessionTimeRemaining 90000000 0
       = Js.join " "
           ((if Z.ltb 0 d then [(Js.numberToString d ++ "d")%string] else [])
            ++ (if Z.ltb 0 h then [(Js.numberToString h ++ "h")%string] else [])
            ++ (if Z.ltb 0 m || Z.eqb d 0 && Z.eqb h 0
                then [(Js.numberToString m ++ "m")%string] else []))%list.
Proof. apply (session_time_remaining_parts 90000000 0). reflexivity. Defined.

Lemma remainingParts_first (remainingMs : Z) :
  0 < remainingMs ->
  exists c rest,
    Js.join " " (remainingParts remainingMs) = String c rest
    /\ c <> "E"%char.
Proof.
  intros Hpos.
  destruct (remainingParts_shape remainingMs Hpos)
    as (d & h & m & Hd & Hh & Hm & _ & _ & ->).
  assert (Hhead : forall n unit tail,
             0 <= n ->
             exists c rest,
               Js.join " " ((Js.numberToString n ++ unit)%string :: tail)
               = String c rest /\ c <> "E"%char).
  { intros n unit tail Hn.
    destruct (numberToString_first n Hn) as (c & rest & Hs & Hc).
    unfold Js.join. simpl. rewrite Hs.
    destruct tail; simpl; eauto. }
  destruct (Z.ltb_spec 0 d); [apply Hhead; lia|].
  destruct (Z.ltb_spec 0 h); [apply Hhead; lia|].
  assert (Z.eqb d 0 = true) as -> by (apply Z.eqb_eq; lia).
  assert (Z.eqb h 0 = true) as -> by (apply Z.eqb_eq; lia).
  rewrite orb_true_r. apply Hhead; lia.
Qed.

End Display.

(** When the check-session route answers logged-in: a helper shared by the
    statements below. *)
Lemma check_session_fields (io : IronSession.Faults)
    (cookie : Siwe.SiweSessionData) :
  Siwe.isLoggedIn (SessionRoute.GET io cookie) = true ->
  IronSession.loadFails io = false
  /\ Siwe.isLoggedIn cookie = true
  /\ Js.truthyString (Siwe.address cookie) = true.
Proof.
  unfold SessionRoute.GET, IronSession.getIronSession.
  destruct (IronSession.loadFails io); [discriminate|].
  destruct (Siwe.isLoggedIn cookie); [|discriminate].
  destruct (Js.truthyString (Siwe.address cookie)); [|discriminate].
  intros _. repeat split.
Qed.

Section SessionLifetime.

Import Siwe.

(** The remaining-time display reads [Expired] exactly from the instant the
    cookie's max age has passed since [signedInAt], which is the expiry
    instant the page prints; before that it is the non-empty list of parts,
    never the empty string. *)
Theorem session_time_remaining_expired (now signedInAt : Z) :
  (getSessionTimeRemaining now signedInAt = "Expired"
   <-> signedInAt + 1000 * cookieMaxAge <= now)
  /\ (getSessionTimeRemaining now signedInAt = "Expired"
      <-> SiwePage.expiryShown signedInAt <= now)
  /\ getSessionTimeRemaining now signedInAt <> "".
Proof.
  assert (Hage : SESSION_MAX_AGE_MS = 1000 * cookieMaxAge) by reflexivity.
  assert (Hshown : SiwePage.expiryShown signedInAt
                   = signedInAt + 1000 * cookieMaxAge) by reflexivity.
  rewrite Hshown. clear Hshown.
  assert (Hiff : getSessionTimeRemaining now signedInAt = "Expired"
                 <-> signedInAt + 1000 * cookieMaxAge <= now).
  { unfold getSessionTimeRemaining. cbv zeta. rewrite Hage.
    destruct (Z.leb_spec (signedInAt + 1000 * cookieMaxAge - now) 0) as [H|H].
    - split; [lia | reflexivity].
    - split; [|lia]. intros Heq. exfalso.
      destruct (remainingParts_first _ H) as (c & rest & Hs & Hc).
      rewrite Hs in Heq. injection Heq as Hc' _. contradiction. }
  repeat split; try apply Hiff.
  - unfold getSessionTimeRemaining. cbv zeta.
    destruct (Z.leb_spec (signedInAt + SESSION_MAX_AGE_MS - now) 0) as [H|H];
      [discriminate|].
    destruct (remainingParts_first _ H) as (c & rest & -> & _). discriminate.
Qed.

Lemma session_time_remaining_expired_witness :
  getSessionTimeRemaining 604800000 0 = "Expired".
Proof.
  refine (proj2 (proj1 (session_time_remaining_expired 604800000 0)) _).
  vm_compute. discriminate.
Defined.

(** The type guard holds exactly for a logged-in record whose address is a
    non-empty string and whose chainId is a non-zero number; for such a
    record the check-session route answers the authenticated shape; and the
    route can answer logged-in for a record the guard refuses only when the
    chainId is missing or zero. *)
Theorem authenticated_guard (session : SiweSessionData) :
  (isAuthenticated session = true <->
     isLoggedIn session = true
     /\ (exists a, address session = Some a /\ a <> "")
     /\ (exists c, chainId session = Some c /\ c <> 0))
  /\ (isAuthenticated session = true ->
      SessionRoute.GET IronSession.noFaults session
      = {| address := address session; chainId := chainId session;
           nonce := None; isLoggedIn := true;
           signedInAt := signedInAt session |})
  /\ (forall io,
        isLoggedIn (SessionRoute.GET io session) = true ->
        isAuthenticated session = false ->
        chainId session = None \/ chainId session = Some 0).
Proof.
  unfold isAuthenticated.
  assert (Hnum : Js.truthyNumber (chainId session) = true
                 <-> exists c, chainId session = Some c /\ c <> 0).
  { destruct (chainId session) as [c|]; simpl.
    - rewrite negb_true_iff, Z.eqb_neq. split.
      + intros H. now exists c.
      + now intros (c' & [= <-] & H).
    - split; [discriminate | intros (c & [=] & _)]. }
  split; [|split].
  - rewrite !andb_true_iff, truthyString_Some, Hnum. tauto.
  - rewrite !andb_true_iff. intros [[Hin Ha] _].
    unfold SessionRoute.GET. simpl. now rewrite Hin, Ha.
  - intros io Hroute Hguard.
    apply check_session_fields in Hroute as (_ & Hin & Ha).
    rewrite Hin, Ha in Hguard. simpl in Hguard.
    destruct (chainId session) as [c|]; [|now left].
    simpl in Hguard. apply negb_false_iff, Z.eqb_eq in Hguard. subst c.
    now right.
Qed.

Lemma authenticated_guard_witness :
  SessionRoute.GET IronSession.noFaults Scenario.authenticated
  = {| address := Some Scenario.signer; chainId := Some 1; nonce := None;
       isLoggedIn := true; signedInAt := Some (Scenario.T + 1) |}.
Proof.
  refine (proj1 (proj2 (authenticated_guard Scenario.authenticated)) _).
  reflexivity.
Defined.

End SessionLifetime.

(** ** app/api/siwe/verify/route.ts: the diagnosis and the status codes *)

Section Diagnosis.

Import VerifyRoute.

Lemma strictNe_true (a : option string) (b : string) :
  Js.strictNe a b = true <-> a <> Some b.
Proof.
  rewrite <- not_false_iff_true, strictNe_false. reflexivity.
Qed.


Lemma diagnosis_nonce_mismatch (now : Z) (m : Viem.SiweMessage)
    (d n : string) :
  Viem.domain m = Some d -> Viem.nonce m <> Some n ->
  getVerificationErrorMessage now m d n
  = "Nonce mismatch. Please request a new nonce and try again.".
Proof.
  intros Hd%strictNe_false Hn%strictNe_true.
  unfold getVerificationErrorMessage. now rewrite Hd, Hn.
Qed.



End Diagnosis.

Section Status.

Import Siwe IronSession VerifyRoute.

Context `{api : Viem.SiweApi}.

(** A failure of the verify route carries status 400 or 500, and 500 only
    for what is not the client's doing: a body that cannot be read, a
    session that cannot be loaded, a request without Host header, or a save
    that fails after the verifier has accepted.  Whatever else the verifier
    does, returning false or throwing, is answered with 400 and the
    diagnosis, store faults or not. *)
Theorem verify_failure_status (io : Faults) (clock : Clock)
    (request : NextRequest) (cookie : SiweSessionData) :
  (forall status error,
     fst (POST io clock request cookie) = Failure status error ->
     (status = 400 \/ status = 500)
     /\ (status = 500 ->
         (exists e, json request = Throws e)
         \/ loadFails io = true
         \/ Js.truthy (host request) = None
         \/ (saveFails io = true
             /\ exists message signature n d m,
                  wellShaped request message signature
                  /\ nonce cookie = Some n /\ host request = Some d
                  /\ Viem.parseSiweMessage message = Returns m
                  /\ Viem.verifySiweMessage
                       (getPublicClientForChain (Viem.chainId m))
                       {| Viem.message := message;
                          Viem.signature := signature;
                          Viem.expectedDomain := d;
                          Viem.expectedNonce := n;
                          Viem.time := verifyTime clock |}
                     = Returns true)))
  /\ (forall message signature n d m,
        wellShaped request message signature ->
        loadFails io = false ->
        nonce cookie = Some n -> n <> "" ->
        host request = Some d -> d <> "" ->
        Viem.parseSiweMessage message = Returns m ->
        Viem.verifySiweMessage (getPublicClientForChain (Viem.chainId m))
          {| Viem.message := message; Viem.signature := signature;
             Viem.expectedDomain := d; Viem.expectedNonce := n;
             Viem.time := verifyTime clock |} <> Returns true ->
        POST io clock request cookie
        = (Failure 400
             (getVerificationErrorMessage (diagnoseTime clock) m d n),
           cookie)).
Proof.
  split.
  - intros status error. unfold POST, getIronSession.
    destruct (json request) as [body|e] eqn:Hj.
    2:{ intros [= <- _]. split; [now right|]. intros _. left. now exists e. }
    destruct (Js.nonEmptyString (VerifyRoute.message body))
      as [message|] eqn:Hm;
      [|intros [= <- _]; split; [now left | discriminate]].
    destruct (Js.nonEmptyString (VerifyRoute.signature body))
      as [signature|] eqn:Hs;
      [|intros [= <- _]; split; [now left | discriminate]].
    destruct (loadFails io) eqn:Hl;
      [intros [= <- _]; split; [now right | intros _; right; now left]|].
    destruct (Js.truthy (nonce cookie)) as [n|] eqn:Hn;
      [|intros [= <- _]; split; [now left | discriminate]].
    unfold verifyAndPromote, save.
    destruct (Viem.parseSiweMessage message) as [m|] eqn:Hp;
      [|intros [= <- _]; split; [now left | discriminate]].
    destruct (Js.truthy (host request)) as [d|] eqn:Hh;
      [|intros [= <- _]; split;
        [now right | intros _; right; right; now left]].
    destruct (Viem.verifySiweMessage _ _) as [[]|] eqn:Hv;
      try (intros [= <- _]; split; [now left | discriminate]).
    destruct (saveFails io) eqn:Hsave; [|discriminate].
    intros [= <- _]. split; [now right|]. intros _.
    right; right; right. split; [reflexivity|].
    apply truthy_Some in Hn as [Hn _]. apply truthy_Some in Hh as [Hh _].
    exists message, signature, n, d, m. repeat split; try assumption.
    apply wellShaped_body. eauto.
  - intros message signature n d m Hshape Hl Hn Hnne Hh Hdne Hp Hno.
    rewrite (POST_past_nonce io clock request cookie
               message signature n Hshape Hl Hn Hnne).
    unfold verifyAndPromote. rewrite Hp.
    assert (Ht : Js.truthy (host request) = Some d) by now apply truthy_Some.
    rewrite Ht.
    destruct (Viem.verifySiweMessage _ _) as [[]|]; try reflexivity.
    now contradiction Hno.
Qed.

(** What a successful verification answers is what it stored: the new
    cookie holds exactly the address, chainId and signedInAt of the response,
    logged in and without nonce, and nothing of the record it replaces. *)
Theorem verify_success_stores_response (io : Faults) (clock : Clock)
    (request : NextRequest) (cookie cookie' : SiweSessionData)
    (a : option string) (c : option Z) (t : Z) :
  POST io clock request cookie = (Success a c t, cookie') ->
  cookie' = {| address := a; chainId := c; nonce := None;
               isLoggedIn := true; signedInAt := Some t |}
  /\ t = signInTime clock
  /\ forall other,
       fst (POST io clock request other) = Success a c t
       \/ exists status error,
            POST io clock request other = (Failure status error, other).
Proof.
  intros Hok.
  destruct (POST_success_inv _ _ _ _ _ _ _ _ Hok)
    as (message & signature & n & d & m & Hshape & Hl & Hs & Hn & Hnne & Hp
        & Hh & Hdne & Hv & -> & -> & -> & ->).
  repeat split.
  intros other.
  destruct (POST io clock request other) as [r other'] eqn:Hother.
  destruct r as [a' c' t'|status error].
  - left. simpl.
    destruct (POST_success_inv _ _ _ _ _ _ _ _ Hother)
      as (message' & signature' & n' & d' & m' & Hshape' & _ & _ & _ & _ & Hp'
          & _ & _ & _ & -> & -> & -> & _).
    destruct (wellShaped_unique _ _ _ _ _ Hshape Hshape') as [<- <-].
    rewrite Hp in Hp'. now injection Hp' as <-.
  - right. exists status, error.
    pose proof (POST_failure_keeps io clock request other status error) as Hk.
    rewrite Hother in Hk. simpl in Hk. now rewrite Hk.
Qed.

End Status.

Section StatusScenario.

Import Siwe IronSession VerifyRoute.

(** A verifier whose oracle cannot be reached throws; the route answers 400
    with the diagnosis. *)
Lemma verify_failure_status_witness :
  POST (api := {| Viem.parseSiweMessage := Scenario.parse;
                  Viem.verifySiweMessage := fun _ _ =>
                    Throws "oracle unavailable" |})
    noFaults (Scenario.at_ (Scenario.T + 1))
    (Scenario.request "localhost:3000") Scenario.challenged
  = (Failure 400
       "Invalid signature. The message was not signed by the claimed address.",
     Scenario.challenged).
Proof.
  rewrite (proj2
    (verify_failure_status
       (api := {| Viem.parseSiweMessage := Scenario.parse;
                  Viem.verifySiweMessage := fun _ _ =>
                    Throws "oracle unavailable" |})
       noFaults (Scenario.at_ (Scenario.T + 1))
       (Scenario.request "localhost:3000") Scenario.challenged)
    Scenario.text (Scenario.signed Scenario.signer Scenario.text)
    "n1" "localhost:3000" Scenario.parsed
    (scenario_request_wellShaped "localhost:3000")
    eq_refl eq_refl ltac:(discriminate) eq_refl ltac:(discriminate) eq_refl
    ltac:(discriminate)).
  reflexivity.
Defined.

Lemma verify_success_stores_response_witness :
  Scenario.authenticated
  = {| address := Some Scenario.signer; chainId := Some 1; nonce := None;
       isLoggedIn := true; signedInAt := Some (Scenario.T + 1) |}.
Proof.
  refine (proj1 (verify_success_stores_response (api := Scenario.api)
                   noFaults (Scenario.at_ (Scenario.T + 1))
                   (Scenario.request "localhost:3000") Scenario.challenged
                   Scenario.authenticated (Some Scenario.signer) (Some 1)
                   (Scenario.T + 1) _)).
  vm_compute. reflexivity.
Defined.

End StatusScenario.

(** ** app/api/siwe/nonce/route.ts *)

Section NonceIssuance.

Import Siwe IronSession.

Lemma nonce_GET_ok (io : Faults) (generated n : string)
    (cookie cookie' : SiweSessionData) :
  NonceRoute.GET io generated cookie = (NonceRoute.Nonce n, cookie') ->
  loadFails io = false /\ saveFails io = false /\ n = generated
  /\ cookie' = {| address := address cookie; chainId := chainId cookie;
                  nonce := Some generated; isLoggedIn := false;
                  signedInAt := signedInAt cookie |}.
Proof.
  unfold NonceRoute.GET, getIronSession, save.
  destruct (loadFails io); [discriminate|].
  destruct (saveFails io); [discriminate|].
  intros [= <- <-]. repeat split.
Qed.

(** Requesting a nonce logs out: once the nonce route has answered with a
    nonce, that nonce is the one stored, the check-session route answers
    [{ isLoggedIn: false }] under any condition, and [isAuthenticated]
    refuses the record, although the address of an earlier login is still in
    it.  A nonce request that fails changes nothing. *)
Theorem nonce_request_logs_out (io : Faults) (generated : string)
    (cookie : SiweSessionData) :
  (forall n cookie',
     NonceRoute.GET io generated cookie = (NonceRoute.Nonce n, cookie') ->
     n = generated
     /\ nonce cookie' = Some generated
     /\ (forall io', SessionRoute.GET io' cookie' = defaultSession)
     /\ isAuthenticated cookie' = false
     /\ address cookie' = address cookie)
  /\ (forall status error cookie',
        NonceRoute.GET io generated cookie
        = (NonceRoute.Failure status error, cookie') ->
        cookie' = cookie /\ status = 500).
Proof.
  split.
  - intros n cookie' (_ & _ & -> & ->)%nonce_GET_ok.
    repeat split.
    intros io'. unfold SessionRoute.GET, getIronSession.
    destruct (loadFails io'); reflexivity.
  - intros status error cookie'.
    unfold NonceRoute.GET, getIronSession, save.
    repeat (next_guard; try discriminate);
      intros [= <- _ <-]; now split.
Qed.

Lemma nonce_request_logs_out_witness :
  SessionRoute.GET noFaults
    (snd (NonceRoute.GET noFaults "n2" Scenario.authenticated))
  = defaultSession.
Proof.
  refine (proj1 (proj2 (proj2
    (proj1 (nonce_request_logs_out noFaults "n2" Scenario.authenticated)
       "n2" (snd (NonceRoute.GET noFaults "n2" Scenario.authenticated)) _)))
    noFaults).
  reflexivity.
Defined.

(** Only the latest nonce counts: a nonce request that succeeds leaves the
    same cookie whether or not another nonce had been requested before it. *)
Theorem latest_nonce_wins (io1 io2 : Faults) (first second : string)
    (cookie : SiweSessionData) :
  loadFails io2 = false -> saveFails io2 = false ->
  NonceRoute.GET io2 second (snd (NonceRoute.GET io1 first cookie))
  = NonceRoute.GET io2 second cookie
  /\ nonce (snd (NonceRoute.GET io2 second cookie)) = Some second.
Proof.
  intros Hl Hs. unfold NonceRoute.GET, getIronSession, save.
  rewrite Hl, Hs.
  destruct (loadFails io1), (saveFails io1); split; reflexivity.
Qed.

Lemma latest_nonce_wins_witness :
  NonceRoute.GET noFaults "n2" Scenario.challenged
  = NonceRoute.GET noFaults "n2" defaultSession.
Proof.
  refine (proj1 (latest_nonce_wins noFaults noFaults "n1" "n2"
                   defaultSession _ _)); reflexivity.
Defined.

End NonceIssuance.

Section SupersededNonce.

Import Siwe IronSession VerifyRoute.

Context `{api : Viem.SiweApi}.

(** The nonce validation the route's header comment attributes to
    [verifySiweMessage]: a message whose nonce is not the expected one is
    not accepted. *)
Hypothesis verifier_checks_nonce :
  forall client params m,
    Viem.parseSiweMessage (Viem.message params) = Returns m ->
    Viem.nonce m <> Some (Viem.expectedNonce params) ->
    Viem.verifySiweMessage client params <> Returns true.

(** Issuing a new nonce invalidates the previous one: after the nonce route
    stored [fresh], a request whose message carries another nonce, on the
    right domain, is answered with the 400 nonce-mismatch error and changes
    nothing, whatever its signature. *)
Theorem superseded_nonce_rejected (io : Faults) (clock : Clock)
    (request : NextRequest) (cookie : SiweSessionData)
    (message signature fresh d : string) (m : Viem.SiweMessage) :
  fresh <> "" ->
  wellShaped request message signature ->
  Viem.parseSiweMessage message = Returns m ->
  Viem.nonce m <> Some fresh ->
  host request = Some d -> d <> "" -> Viem.domain m = Some d ->
  loadFails io = false ->
  let challenged := snd (NonceRoute.GET noFaults fresh cookie) in
  POST io clock request challenged
  = (Failure 400 "Nonce mismatch. Please request a new nonce and try again.",
     challenged).
Proof.
  intros Hf Hshape Hp Hstale Hh Hdne Hd Hl. cbv zeta.
  rewrite (POST_past_nonce io clock request
             (snd (NonceRoute.GET noFaults fresh cookie))
             message signature fresh Hshape Hl eq_refl Hf).
  unfold verifyAndPromote. rewrite Hp.
  assert (Ht : Js.truthy (host request) = Some d) by now apply truthy_Some.
  rewrite Ht.
  assert (Htext : getVerificationErrorMessage (diagnoseTime clock) m d fresh
                  = "Nonce mismatch. Please request a new nonce and try again.").
  { now apply diagnosis_nonce_mismatch. }
  rewrite Htext.
  pose proof (verifier_checks_nonce
                (getPublicClientForChain (Viem.chainId m))
                {| Viem.message := message; Viem.signature := signature;
                   Viem.expectedDomain := d; Viem.expectedNonce := fresh;
                   Viem.time := verifyTime clock |} m Hp Hstale) as Hrej.
  destruct (Viem.verifySiweMessage _ _) as [[]|]; try reflexivity.
  now contradiction Hrej.
Qed.

End SupersededNonce.

Section SupersededNonceScenario.

Import Siwe IronSession VerifyRoute.

Lemma superseded_nonce_rejected_witness :
  POST (api := Scenario.api) noFaults (Scenario.at_ (Scenario.T + 1))
    (Scenario.request "localhost:3000")
    (snd (NonceRoute.GET noFaults "n2" Scenario.challenged))
  = (Failure 400 "Nonce mismatch. Please request a new nonce and try again.",
     snd (NonceRoute.GET noFaults "n2" Scenario.challenged)).
Proof.
  refine (superseded_nonce_rejected (api := Scenario.api) _ noFaults
            (Scenario.at_ (Scenario.T + 1)) (Scenario.request "localhost:3000")
            Scenario.challenged Scenario.text
            (Scenario.signed Scenario.signer Scenario.text) "n2"
            "localhost:3000" Scenario.parsed _ _ _ _ _ _ _ _);
    try reflexivity; try discriminate.
  - intros client params m Hp Hne Hv. simpl in Hp, Hv.
    apply spec_verify_accepts in Hv as (m' & a & Hp' & _ & Hval & _).
    rewrite Hp in Hp'. injection Hp' as <-.
    apply validate_spec in Hval as (_ & Hn & _). contradiction.
  - eexists. split; [reflexivity|]. repeat split; discriminate.
Defined.

End SupersededNonceScenario.

(** ** hooks/useSiwe.ts: checkSession and signIn *)

Section ClientSession.

Import UseSiwe.

Lemma truthy_truthyString (o : option string) :
  Js.truthyString o = true <-> is_Some (Js.truthy o).
Proof.
  destruct o as [s|]; simpl.
  - destruct (String.eqb s ""); simpl; split; eauto; try discriminate.
    intros [x [=]].
  - split; [discriminate | intros [x [=]]].
Qed.

(** Checking the session against the session route: the hook ends signed in
    exactly when the session loads, is logged in and has an address, and
    then it is bound to that non-empty address; otherwise it holds no
    identity at all.  Loading and error are cleared, the displayed message is
    kept, and a second check against the same answer changes nothing.  When
    the fetch itself fails the hook ends signed out with an error, but keeps
    the address it had. *)
Theorem check_session_mirrors_route (io : IronSession.Faults)
    (cookie : Siwe.SiweSessionData) (prev : SiweState) :
  let answer := Resolves (SessionRoute.GET io cookie) in
  let state := checkSession answer prev in
  (isSignedIn state = true <->
     IronSession.loadFails io = false /\ Siwe.isLoggedIn cookie = true
     /\ Js.truthyString (Siwe.address cookie) = true)
  /\ (isSignedIn state = true ->
      exists a, address state = Some a /\ a <> ""
                /\ Siwe.address cookie = Some a)
  /\ (isSignedIn state = false ->
      address state = None /\ chainId state = None
      /\ signedInAt state = None)
  /\ isLoading state = false /\ error state = None
  /\ siweMessage state = siweMessage prev
  /\ checkSession answer state = state
  /\ (forall e,
        isSignedIn (checkSession (Rejects e) prev) = false
        /\ address (checkSession (Rejects e) prev) = address prev
        /\ error (checkSession (Rejects e) prev)
           = Some "Failed to check session status").
Proof.
  cbv zeta. unfold SessionRoute.GET, IronSession.getIronSession.
  destruct (IronSession.loadFails io); simpl.
  { repeat split; try discriminate. intros (H & _). discriminate. }
  destruct (Siwe.isLoggedIn cookie); simpl.
  2:{ repeat split; try discriminate. intros (_ & H & _). discriminate. }
  destruct (Js.truthyString (Siwe.address cookie)) eqn:Ha; simpl.
  2:{ repeat split; try discriminate. intros (_ & _ & H). discriminate. }
  apply truthyString_Some in Ha as (a & Ha & Hne).
  assert (Ht : Js.truthy (Siwe.address cookie) = Some a)
    by now apply truthy_Some.
  rewrite Ht. repeat split; try discriminate.
  intros _. now exists a.
Qed.

Lemma check_session_mirrors_route_witness :
  exists a,
    address (checkSession
               (Resolves (SessionRoute.GET IronSession.noFaults
                            Scenario.authenticated)) initialState) = Some a
    /\ a <> "" /\ Siwe.address Scenario.authenticated = Some a.
Proof.
  refine (proj1 (proj2
    (check_session_mirrors_route IronSession.noFaults Scenario.authenticated
       initialState)) _).
  reflexivity.
Defined.

End ClientSession.

Section SignIn.

Import UseSiwe.

Lemma prefix_append (s t : string) : String.prefix s (s ++ t) = true.
Proof.
  induction s as [|c s IH]; simpl; [now destruct t|].
  destruct (ascii_dec c c); [exact IH | contradiction].
Qed.

Lemma includes_append (sub pre post : string) :
  Js.includes sub (pre ++ sub ++ post) = true.
Proof.
  assert (Hprefix : forall s, String.prefix sub s = true ->
                              Js.includes sub s = true)
    by (intros s H; destruct s; cbn [Js.includes]; now rewrite H).
  induction pre as [|c pre IH].
  - change ("" ++ sub ++ post) with (sub ++ post).
    apply Hprefix, prefix_append.
  - change (String c pre ++ sub ++ post) with (String c (pre ++ sub ++ post)).
    cbn [Js.includes]. rewrite IH. apply orb_true_r.
Qed.

Lemma toLowerCase_append (s t : string) :
  Js.toLowerCase (s ++ t) = Js.toLowerCase s ++ Js.toLowerCase t.
Proof. induction s as [|c s IH]; simpl; [reflexivity | now rewrite IH]. Qed.

(** Without a connected wallet and address [signIn] contacts nobody: it
    makes no request, leaves sign-in state, identity and the loading flag as
    they are, shows [Please connect your wallet first] and returns the error
    [Wallet not connected]. *)
Theorem sign_in_needs_wallet (env : SignInEnv) (state : SiweState) :
  isConnected (account env) = false
  \/ Js.truthy (connectedAddress (account env)) = None ->
  effects (signIn env state) = []
  /\ result (signIn env state) = NotSignedIn "Wallet not connected"
  /\ error (finalState (signIn env state))
     = Some "Please connect your wallet first"
  /\ isSignedIn (finalState (signIn env state)) = isSignedIn state
  /\ address (finalState (signIn env state)) = address state
  /\ isLoading (finalState (signIn env state)) = isLoading state.
Proof.
  intros Hno. unfold signIn.
  destruct (isConnected (account env)) eqn:Hc.
  - destruct Hno as [Hno|Hno]; [discriminate|]. rewrite Hno.
    repeat split.
  - destruct (Js.truthy (connectedAddress (account env))); repeat split.
Qed.

(** The runs of the inner steps, by outcome. *)
Lemma signAndVerify_cases (env : SignInEnv) (message : string)
    (state : SiweState) :
  (exists e,
     result (signAndVerify env message state) = NotSignedIn e
     /\ finalState (signAndVerify env message state)
        = setError e (setSiweMessage message state)
     /\ (effects (signAndVerify env message state)
         = [FetchNonce; SignMessage message]
         \/ exists signature,
              signMessageAsync env message = Resolves signature
              /\ effects (signAndVerify env message state)
                 = [FetchNonce; SignMessage message;
                    PostVerify message signature]))
  \/ (exists signature response data,
        signMessageAsync env message = Resolves signature
        /\ fetchVerify env message signature = Resolves response
        /\ ok response = true /\ json response = Resolves data
        /\ dataOk data = true
        /\ result (signAndVerify env message state)
           = SignedIn (dataAddress data)
        /\ finalState (signAndVerify env message state)
           = setSignedIn data (setSiweMessage message state)
        /\ effects (signAndVerify env message state)
           = [FetchNonce; SignMessage message; PostVerify message signature]).
Proof.
  unfold signAndVerify, caught, failWith.
  destruct (signMessageAsync env message) as [signature|signError] eqn:Hs.
  2:{ left. eexists. repeat split. now left. }
  destruct (fetchVerify env message signature) as [response|e] eqn:Hf.
  2:{ left. eexists. repeat split. right. now exists signature. }
  destruct (json response) as [data|e] eqn:Hj.
  2:{ left. eexists. repeat split. right. now exists signature. }
  destruct (ok response) eqn:Hok; simpl.
  2:{ left. eexists. repeat split. right. now exists signature. }
  destruct (dataOk data) eqn:Hd; simpl.
  2:{ left. eexists. repeat split. right. now exists signature. }
  right. exists signature, response, data. repeat split; assumption.
Qed.

(** [signIn] signs in only on the server's word: it returns success only
    after the nonce route answered ok, a message was created from that
    nonce for the connected address, the wallet signed that message, and
    the verify route answered ok to exactly that message and signature with
    [ok: true]; the state then carries the identity of that answer.  A
    failed run leaves sign-in state and identity as they were, shows an
    error, and has posted to the verify route only if the wallet signed. *)
Theorem sign_in_outcomes (env : SignInEnv) (state : SiweState) :
  (forall a,
     result (signIn env state) = SignedIn a ->
     exists connected nonceResponse nonceData message signature response data,
       isConnected (account env) = true
       /\ Js.truthy (connectedAddress (account env)) = Some connected
       /\ fetchNonce env = Resolves nonceResponse
       /\ ok nonceResponse = true
       /\ json nonceResponse = Resolves nonceData
       /\ createSiweMessage env
            (messageFields env connected (dataNonce nonceData))
          = Resolves message
       /\ signMessageAsync env message = Resolves signature
       /\ fetchVerify env message signature = Resolves response
       /\ ok response = true /\ json response = Resolves data
       /\ dataOk data = true /\ a = dataAddress data
       /\ effects (signIn env state)
          = [FetchNonce; SignMessage message; PostVerify message signature]
       /\ finalState (signIn env state)
          = {| address := dataAddress data; chainId := dataChainId data;
               isSignedIn := true; isLoading := false; error := None;
               siweMessage := Some message;
               signedInAt := dataSignedInAt data |})
  /\ (forall e,
        result (signIn env state) = NotSignedIn e ->
        isSignedIn (finalState (signIn env state)) = isSignedIn state
        /\ address (finalState (signIn env state)) = address state
        /\ chainId (finalState (signIn env state)) = chainId state
        /\ signedInAt (finalState (signIn env state)) = signedInAt state
        /\ is_Some (error (finalState (signIn env state)))
        /\ (forall message signature,
              In (PostVerify message signature) (effects (signIn env state)) ->
              signMessageAsync env message = Resolves signature)).
Proof.
  unfold signIn.
  destruct (isConnected (account env)) eqn:Hc.
  2:{ split; [discriminate|].
      destruct (Js.truthy (connectedAddress (account env)));
        intros e _; repeat split; simpl; eauto; intros ? ? []. }
  destruct (Js.truthy (connectedAddress (account env))) as [connected|] eqn:Ha.
  2:{ split; [discriminate|].
      intros e _; repeat split; simpl; eauto; intros ? ? []. }
  destruct (fetchNonce env) as [nonceResponse|error] eqn:Hn.
  2:{ split; [discriminate|]. intros e _. repeat split; simpl; eauto.
      intros ? ? [[=]|[]]. }
  destruct (ok nonceResponse) eqn:Hok; simpl.
  2:{ split; [discriminate|]. intros e _. repeat split; simpl; eauto.
      intros ? ? [[=]|[]]. }
  destruct (json nonceResponse) as [nonceData|error] eqn:Hj.
  2:{ split; [discriminate|]. intros e _. repeat split; simpl; eauto.
      intros ? ? [[=]|[]]. }
  destruct (createSiweMessage env _) as [message|error] eqn:Hm.
  2:{ split; [discriminate|]. intros e _. repeat split; simpl; eauto.
      intros ? ? [[=]|[]]. }
  destruct (signAndVerify_cases env message (setLoading state))
    as [(e & Hr & Hst & Heff)
       |(signature & response & data & Hs & Hf & Hrok & Hrj & Hd & Hr & Hst
         & Heff)].
  - split; [intros a Ha'; rewrite Hr in Ha'; discriminate|].
    intros e' _. rewrite Hst. repeat split; simpl; eauto.
    intros message' signature' Hin.
    destruct Heff as [Heff|(signature & Hs & Heff)]; rewrite Heff in Hin.
    + destruct Hin as [[=]|[[=]|[]]].
    + destruct Hin as [[=]|[[=]|[[= <- <-]|[]]]]. exact Hs.
  - split; [|intros e He; rewrite Hr in He; discriminate].
    intros a Ha'. rewrite Hr in Ha'. injection Ha' as <-.
    exists connected, nonceResponse, nonceData, message, signature,
           response, data.
    rewrite Hst. repeat split; assumption.
Qed.

(** The scenario's sign-in runs through nonce, signature and verification
    and ends signed in; the same run with a verify request that arrives
    under another Host is refused by the verify route after the wallet has
    signed, and leaves the hook signed out. *)
Lemma sign_in_outcomes_witness :
  (exists message signature,
     effects (signIn (SignInScenario.env "localhost:3000") initialState)
     = [FetchNonce; SignMessage message; PostVerify message signature]
     /\ signMessageAsync (SignInScenario.env "localhost:3000") message
        = Resolves signature
     /\ finalState (signIn (SignInScenario.env "localhost:3000") initialState)
        = {| address := Some Scenario.signer; chainId := Some 1;
             isSignedIn := true; isLoading := false; error := None;
             siweMessage := Some message;
             signedInAt := Some (Scenario.T + 1) |})
  /\ isSignedIn
       (finalState (signIn (SignInScenario.env "evil.example") initialState))
     = isSignedIn initialState
  /\ In (PostVerify Scenario.text (Scenario.signed Scenario.signer Scenario.text))
        (effects (signIn (SignInScenario.env "evil.example") initialState))
  /\ (forall message signature,
        In (PostVerify message signature)
           (effects (signIn (SignInScenario.env "evil.example") initialState))
        -> signMessageAsync (SignInScenario.env "evil.example") message
           = Resolves signature).
Proof.
  split.
  - destruct (proj1
      (sign_in_outcomes (SignInScenario.env "localhost:3000") initialState)
      (Some Scenario.signer) ltac:(vm_compute; reflexivity))
      as (connected & nonceResponse & nonceData & message & signature
          & response & data & _ & _ & _ & _ & _ & _ & Hsigned & Hposted & _
          & Hjson & _ & _ & Heffects & Hfinal).
    exists message, signature.
    split; [exact Heffects|]. split; [exact Hsigned|].
    rewrite Hfinal. clear Hfinal Hsigned.
    vm_compute in Heffects. inversion Heffects; subst message signature.
    vm_compute in Hposted. injection Hposted as <-.
    vm_compute in Hjson. injection Hjson as <-.
    reflexivity.
  - destruct (proj2
      (sign_in_outcomes (SignInScenario.env "evil.example") initialState)
      "Domain mismatch. Expected: evil.example, Got: localhost:3000"
      ltac:(vm_compute; reflexivity))
      as (Hkept & _ & _ & _ & _ & Hsigned).
    split; [exact Hkept|]. split; [|exact Hsigned].
    vm_compute. right; right; left. reflexivity.
Defined.

Lemma sign_in_needs_wallet_witness :
  effects
    (signIn
       {| account := {| connectedAddress := None; isConnected := false |};
          walletChainId := 1;
          location := {| locationHost := "localhost:3000";
                         locationOrigin := "http://localhost:3000" |};
          fetchNonce := Rejects ThrownOther;
          now := Scenario.T;
          createSiweMessage := fun _ => Rejects ThrownOther;
          signMessageAsync := fun _ => Rejects ThrownOther;
          fetchVerify := fun _ _ => Rejects ThrownOther |}
       initialState)
  = [].
Proof.
  refine (proj1 (sign_in_needs_wallet _ initialState _)).
  left. reflexivity.
Defined.

End SignIn.

Section WalletRejection.

Import UseSiwe.

(** The wallet's refusal: when [signMessageAsync] rejects with an [Error]
    whose message contains [rejected] in any letter case, the run ends with
    [Signature request was rejected]; a thrown value that is not an [Error]
    gives [Failed to sign message] whatever it says.  Either way the message
    stays on display, loading is over, and nothing was posted to the verify
    route. *)
Theorem wallet_rejection_reported (env : SignInEnv) (state : SiweState)
    (message : string) (signError : Thrown) :
  signMessageAsync env message = Rejects signError ->
  let run := signAndVerify env message state in
  effects run = [FetchNonce; SignMessage message]
  /\ siweMessage (finalState run) = Some message
  /\ isLoading (finalState run) = false
  /\ isSignedIn (finalState run) = isSignedIn state
  /\ (forall pre mid post,
        signError = ErrorObject (pre ++ mid ++ post) ->
        Js.toLowerCase mid = "rejected" ->
        result run = NotSignedIn "Signature request was rejected")
  /\ (forall text,
        signError = ThrownString text \/ signError = ThrownOther ->
        result run = NotSignedIn "Failed to sign message")
  /\ (forall text,
        signError = ErrorObject text ->
        Js.includes "rejected" (Js.toLowerCase text) = false ->
        result run = NotSignedIn "Failed to sign message").
Proof.
  intros Hs. cbv zeta. unfold signAndVerify. rewrite Hs.
  unfold failWith, signErrorMessage. simpl. repeat split.
  - intros pre mid post -> Hmid.
    rewrite !toLowerCase_append, Hmid, includes_append. reflexivity.
  - intros text [->| ->]; reflexivity.
  - intros text -> ->. reflexivity.
Qed.

Lemma wallet_rejection_reported_witness :
  result
    (signAndVerify
       {| account := {| connectedAddress := Some Scenario.signer;
                        isConnected := true |};
          walletChainId := 1;
          location := {| locationHost := "localhost:3000";
                         locationOrigin := "http://localhost:3000" |};
          fetchNonce := Rejects ThrownOther;
          now := Scenario.T;
          createSiweMessage := fun _ => Rejects ThrownOther;
          signMessageAsync :=
            fun _ => Rejects (ErrorObject "User Rejected the request.");
          fetchVerify := fun _ _ => Rejects ThrownOther |}
       Scenario.text signedOutState)
  = NotSignedIn "Signature request was rejected".
Proof.
  refine (proj1 (proj2 (proj2 (proj2 (proj2
    (wallet_rejection_reported _ signedOutState Scenario.text
       (ErrorObject "User Rejected the request.") _)))))
    "User " "Rejected" " the request." _ _); reflexivity.
Defined.

End WalletRejection.

(** ** The hook against the routes *)

Section EndToEnd.

Import UseSiwe Wire.

Context `{api : Viem.SiweApi}.

(** A complete sign-in against the routes.  With a connected wallet, no
    store fault, a non-empty nonce, the page's host as Host header, a
    created message that parses back to the connected address and the
    wallet's chain, and a verifier that accepts the wallet's signature for
    the issued nonce and that host: [signIn] returns success for the
    connected address, the hook is signed in with that address, the chain
    and the server's [signedInAt], and the cookie the routes leave behind
    makes a following [checkSession] reproduce exactly this state. *)
Theorem sign_in_end_to_end (b : Backend) (cookie : Siwe.SiweSessionData)
    (wallet : Account) (chain : Z) (loc : Location) (time : Z)
    (create : MessageFields -> Promise string)
    (sign : string -> Promise string) (state : SiweState)
    (connected message signature : string) (m : Viem.SiweMessage) :
  isConnected wallet = true ->
  connectedAddress wallet = Some connected -> connected <> "" ->
  IronSession.loadFails (io b) = false ->
  IronSession.saveFails (io b) = false ->
  generated b <> "" ->
  host b = Some (locationHost loc) -> locationHost loc <> "" ->
  let env := against b cookie wallet chain loc time create sign in
  create (messageFields env connected (Some (generated b)))
    = Resolves message ->
  message <> "" ->
  sign message = Resolves signature -> signature <> "" ->
  Viem.parseSiweMessage message = Returns m ->
  Viem.address m = Some connected -> Viem.chainId m = Some chain ->
  chain <> 0 -> VerifyRoute.signInTime (clock b) <> 0 ->
  Viem.verifySiweMessage (VerifyRoute.getPublicClientForChain (Some chain))
    {| Viem.message := message; Viem.signature := signature;
       Viem.expectedDomain := locationHost loc;
       Viem.expectedNonce := generated b;
       Viem.time := VerifyRoute.verifyTime (clock b) |} = Returns true ->
  let run := signIn env state in
  let signedIn :=
    {| address := Some connected; chainId := Some chain; isSignedIn := true;
       isLoading := false; error := None; siweMessage := Some message;
       signedInAt := Some (VerifyRoute.signInTime (clock b)) |} in
  result run = SignedIn (Some connected)
  /\ finalState run = signedIn
  /\ checkSession
       (Resolves (SessionRoute.GET IronSession.noFaults
                    (cookieAfter b cookie (effects run))))
       (finalState run)
     = signedIn.
Proof.
  intros Hc Ha Hane Hl Hs Hg Hh Hhne env Hcreate Hmne Hsign Hsne Hp Hma Hmc
    Hcz Htz Hv. cbv zeta.
  assert (Hissued : NonceRoute.GET (io b) (generated b) cookie
                    = (NonceRoute.Nonce (generated b),
                       {| Siwe.address := Siwe.address cookie;
                          Siwe.chainId := Siwe.chainId cookie;
                          Siwe.nonce := Some (generated b);
                          Siwe.isLoggedIn := false;
                          Siwe.signedInAt := Siwe.signedInAt cookie |})).
  { unfold NonceRoute.GET, IronSession.getIronSession, IronSession.save.
    now rewrite Hl, Hs. }
  assert (Hshape : wellShaped (verifyRequest (host b) message signature)
                     message signature).
  { eexists. split; [reflexivity|]. repeat split; assumption. }
  assert (Hpost :
    VerifyRoute.POST (io b) (clock b)
      (verifyRequest (host b) message signature)
      (snd (NonceRoute.GET (io b) (generated b) cookie))
    = (VerifyRoute.Success (Some connected) (Some chain)
         (VerifyRoute.signInTime (clock b)),
       {| Siwe.address := Some connected; Siwe.chainId := Some chain;
          Siwe.nonce := None; Siwe.isLoggedIn := true;
          Siwe.signedInAt := Some (VerifyRoute.signInTime (clock b)) |})).
  { rewrite Hissued. simpl snd.
    rewrite (POST_success (io b) (clock b)
               (verifyRequest (host b) message signature)
               {| Siwe.address := Siwe.address cookie;
                  Siwe.chainId := Siwe.chainId cookie;
                  Siwe.nonce := Some (generated b);
                  Siwe.isLoggedIn := false;
                  Siwe.signedInAt := Siwe.signedInAt cookie |}
               message signature (generated b) (locationHost loc) m
               Hshape Hl Hs eq_refl Hg Hp Hh Hhne);
      [now rewrite Hma, Hmc | now rewrite Hmc]. }
  assert (Htc : Js.truthy (connectedAddress wallet) = Some connected)
    by now apply truthy_Some.
  assert (Hrun : signIn env state
                 = {| finalState :=
                        {| address := Some connected; chainId := Some chain;
                           isSignedIn := true; isLoading := false;
                           error := None; siweMessage := Some message;
                           signedInAt :=
                             Some (VerifyRoute.signInTime (clock b)) |};
                      result := SignedIn (Some connected);
                      effects := [FetchNonce; SignMessage message;
                                  PostVerify message signature] |}).
  { unfold signIn, messageFields in *. subst env. unfold against in *.
    simpl in Hcreate |- *.
    rewrite Hc, Htc, Hissued. simpl. rewrite Hcreate.
    unfold signAndVerify. simpl. rewrite Hsign.
    rewrite Hissued in Hpost. simpl in Hpost. rewrite Hpost. reflexivity. }
  rewrite Hrun. simpl. repeat split.
  rewrite Hissued. simpl snd. rewrite Hissued in Hpost. simpl in Hpost.
  rewrite Hpost. simpl.
  unfold SessionRoute.GET. simpl.
  apply String.eqb_neq in Hane. rewrite Hane. simpl. rewrite Hane.
  apply Z.eqb_neq in Hcz, Htz. now rewrite Hcz, Htz.
Qed.

(** Sign-out against the session route: when the route destroys the
    session the hook returns to the signed-out defaults, the cookie is the
    empty session, and a following [checkSession] stays at those defaults;
    when the route fails, the cookie is untouched and the hook keeps its
    sign-in state and address and shows [Failed to sign out]. *)
Theorem sign_out_end_to_end (faults : IronSession.Faults)
    (cookie : Siwe.SiweSessionData) (state : SiweState) :
  let response := SessionRoute.DELETE faults cookie in
  let state' := signOut (deleteOutcome (fst response)) state in
  (IronSession.loadFails faults = false ->
   IronSession.saveFails faults = false ->
   state' = signedOutState
   /\ snd response = Siwe.defaultSession
   /\ forall faults',
        checkSession (Resolves (SessionRoute.GET faults' (snd response)))
          state'
        = signedOutState)
  /\ (IronSession.loadFails faults = true
      \/ IronSession.saveFails faults = true ->
      snd response = cookie
      /\ isSignedIn state' = isSignedIn state
      /\ address state' = address state
      /\ error state' = Some "Failed to sign out").
Proof.
  cbv zeta.
  unfold SessionRoute.DELETE, IronSession.getIronSession, IronSession.destroy.
  split.
  - intros -> ->. simpl. repeat split.
    intros faults'. unfold SessionRoute.GET, IronSession.getIronSession.
    destruct (IronSession.loadFails faults'); reflexivity.
  - intros [H|H]; rewrite H;
      destruct (IronSession.loadFails faults); repeat split.
Qed.

End EndToEnd.

Section EndToEndScenario.

Import UseSiwe Wire.

Lemma sign_in_end_to_end_witness :
  result
    (signIn
       (against (api := Scenario.api)
          {| io := IronSession.noFaults; generated := "n1";
             clock := Scenario.at_ (Scenario.T + 1);
             host := Some "localhost:3000" |}
          Siwe.defaultSession
          {| connectedAddress := Some Scenario.signer; isConnected := true |}
          1
          {| locationHost := "localhost:3000";
             locationOrigin := "http://localhost:3000" |}
          Scenario.T
          (fun _ => Resolves Scenario.text)
          (fun message => Resolves (Scenario.signed Scenario.signer message)))
       initialState)
  = SignedIn (Some Scenario.signer).
Proof.
  refine (proj1
    (sign_in_end_to_end (api := Scenario.api)
       {| io := IronSession.noFaults; generated := "n1";
          clock := Scenario.at_ (Scenario.T + 1);
          host := Some "localhost:3000" |}
       Siwe.defaultSession
       {| connectedAddress := Some Scenario.signer; isConnected := true |}
       1
       {| locationHost := "localhost:3000";
          locationOrigin := "http://localhost:3000" |}
       Scenario.T
       (fun _ => Resolves Scenario.text)
       (fun message => Resolves (Scenario.signed Scenario.signer message))
       initialState Scenario.signer Scenario.text
       (Scenario.signed Scenario.signer Scenario.text) Scenario.parsed
       _ _ _ _ _ _ _ _ _ _ _ _ _ _ _ _ _ _));
    try reflexivity; try discriminate.
Defined.

Lemma sign_out_end_to_end_witness :
  signOut
    (deleteOutcome
       (fst (SessionRoute.DELETE IronSession.noFaults Scenario.authenticated)))
    (checkSession
       (Resolves (SessionRoute.GET IronSession.noFaults
                    Scenario.authenticated)) initialState)
  = signedOutState.
Proof.
  refine (proj1 (proj1
    (sign_out_end_to_end IronSession.noFaults Scenario.authenticated _)
    _ _)); reflexivity.
Defined.

End EndToEndScenario.

(** ** The auto-logout guards and the page *)

Section Guards.

Import UseSiwe.

Lemma autoLogout_signed_out (account : Account) (state : SiweState)
    (hasSeen : bool) :
  isSignedIn state = false -> autoLogout account state hasSeen = [].
Proof. intros H. unfold autoLogout. now rewrite H. Qed.

(** Split a membership in the list of triggers along the effect's tests. *)
Ltac split_triggers :=
  repeat match goal with
         | H : In _ (_ ++ _) |- _ => apply in_app_or in H as [H|H]
         | H : In _ (if ?b then _ else _) |- _ => destruct b eqn:?
         | H : In _ (match ?o with _ => _ end) |- _ => destruct o eqn:?
         | H : In _ [] |- _ => destruct H
         | H : In _ [_] |- _ => destruct H as [H|[]]; try discriminate H
         end.

(** What auto-logout never does: it never signs out a state that is not
    signed in; it starts no sign-out for a disconnected wallet before some
    render has seen the wallet connected; it starts none for an address
    change while no address is connected, nor when the connected address
    equals the bound one up to letter case.  So while a page load has not yet
    seen a wallet, reconciliation leaves the restored session alone. *)
Theorem auto_logout_guards (account : Account) (state : SiweState)
    (hasSeen : bool) :
  (isSignedIn state = false -> autoLogout account state hasSeen = [])
  /\ (hasSeen = false ->
      ~ In WalletDisconnected (autoLogout account state hasSeen))
  /\ (connectedAddress account = None ->
      ~ In AddressChanged (autoLogout account state hasSeen))
  /\ (forall bound connected,
        address state = Some bound ->
        connectedAddress account = Some connected ->
        Js.toLowerCase connected = Js.toLowerCase bound ->
        ~ In AddressChanged (autoLogout account state hasSeen))
  /\ (forall deleted history,
        (forall earlier, In earlier (history ++ [account]) ->
                         isConnected earlier = false) ->
        connectedAddress account = None ->
        reconcile deleted account (state, hasSeenAfter history)
        = (state, false)).
Proof.
  split; [apply autoLogout_signed_out|].
  assert (Hnone : connectedAddress account = None ->
                  forall seen,
                    autoLogout account state seen
                    = if isSignedIn state && negb (isConnected account) && seen
                      then [WalletDisconnected] else []).
  { intros Hc seen. unfold autoLogout. rewrite Hc. simpl.
    now destruct (isSignedIn state). }
  repeat split.
  - intros -> Hin. unfold autoLogout in Hin. rewrite andb_false_r in Hin.
    split_triggers.
  - intros Hc Hin. rewrite (Hnone Hc) in Hin. split_triggers.
  - intros bound connected Hb Hc Heq Hin. unfold autoLogout in Hin.
    rewrite Hb, Hc in Hin. simpl in Hin. split_triggers.
    match goal with
    | H : negb (String.eqb (Js.toLowerCase ?c) (Js.toLowerCase ?b)) = true
      |- _ =>
        assert (c = connected /\ b = bound) as [-> ->];
        [|rewrite Heq, String.eqb_refl in H; discriminate H]
    end.
    split.
    + destruct (String.eqb connected ""); congruence.
    + destruct (String.eqb bound ""); congruence.
  - intros deleted history Hnever Hc.
    assert (Hseen : hasSeenAfter (history ++ [account]) = false).
    { apply not_true_is_false. intros (earlier & Hin & He)%hasSeenAfter_spec.
      rewrite (Hnever earlier Hin) in He. discriminate. }
    unfold reconcile. simpl. rewrite <- hasSeenAfter_app, Hseen.
    rewrite (Hnone Hc). now rewrite andb_false_r.
Qed.

Lemma auto_logout_guards_witness :
  reconcile (fun _ => Responded true)
    {| connectedAddress := None; isConnected := false |}
    ({| address := Some "0xAbC1"; chainId := Some 1; isSignedIn := true;
        isLoading := false; error := None; siweMessage := None;
        signedInAt := Some Scenario.T |}, hasSeenAfter [])
  = ({| address := Some "0xAbC1"; chainId := Some 1; isSignedIn := true;
        isLoading := false; error := None; siweMessage := None;
        signedInAt := Some Scenario.T |}, false).
Proof.
  refine (proj2 (proj2 (proj2 (proj2
    (auto_logout_guards {| connectedAddress := None; isConnected := false |}
       _ false)))) (fun _ => Responded true) [] _ _).
  - intros earlier [<-|[]]. reflexivity.
  - reflexivity.
Defined.

End Guards.

(** What [checkSession] makes of the session route's answer: signed in and
    bound to a non-empty address, or signed out. *)
Lemma check_session_mirrors_route_fields (faults : IronSession.Faults)
    (cookie : Siwe.SiweSessionData) (prev : UseSiwe.SiweState) :
  let state :=
    UseSiwe.checkSession
      (UseSiwe.Resolves (SessionRoute.GET faults cookie)) prev in
  (exists a, UseSiwe.isSignedIn state = true
             /\ Js.truthy (UseSiwe.address state) = Some a)
  \/ UseSiwe.isSignedIn state = false.
Proof.
  cbv zeta. unfold SessionRoute.GET, IronSession.getIronSession.
  destruct (IronSession.loadFails faults); [now right|].
  destruct (Siwe.isLoggedIn cookie); [|now right].
  destruct (Js.truthyString (Siwe.address cookie)) eqn:Ha; [|now right].
  left. simpl. apply truthy_truthyString in Ha as [a Ha].
  exists a. split; [reflexivity|].
  rewrite Ha. simpl. apply truthy_Some in Ha as [_ Hne].
  apply String.eqb_neq in Hne. now rewrite Hne.
Qed.

Section Page.

Import UseSiwe SiwePage.

(** The action row of the demo page shows at most one widget: the connect
    button exactly when neither connected nor signed in, the sign-in button
    exactly when connected and not signed in, the signed-in pill exactly
    when signed in with a non-empty address; it is empty only for a signed-in
    state without address, which [checkSession] against the session route
    never produces.  The protected content is shown only together with the
    pill, and the status reads authenticated only for a signed-in state
    without error. *)
Theorem page_action_row (connected : bool) (state : SiweState) :
  (actionArea connected state = [ConnectButton]
   <-> connected = false /\ isSignedIn state = false)
  /\ (actionArea connected state = [SignInButton (isLoading state)]
      <-> connected = true /\ isSignedIn state = false)
  /\ (forall a,
        actionArea connected state = [SignedInPill a (isLoading state)]
        <-> isSignedIn state = true /\ Js.truthy (address state) = Some a)
  /\ (actionArea connected state = []
      <-> isSignedIn state = true /\ Js.truthy (address state) = None)
  /\ (length (actionArea connected state) <= 1)%nat
  /\ (forall faults cookie prev,
        actionArea connected
          (checkSession (Resolves (SessionRoute.GET faults cookie)) prev)
        <> [])
  /\ (showsProtectedContent state = true ->
      exists a,
        actionArea connected state = [SignedInPill a (isLoading state)])
  /\ (statusNotification connected state = Authenticated ->
      isSignedIn state = true /\ Js.truthy (error state) = None).
Proof.
  assert (Hrow : forall st,
            actionArea connected st
            = if isSignedIn st then
                match Js.truthy (address st) with
                | Some a => [SignedInPill a (isLoading st)]
                | None => []
                end
              else if connected then [SignInButton (isLoading st)]
                   else [ConnectButton]).
  { intros st. unfold actionArea.
    destruct connected, (isSignedIn st); simpl; try reflexivity;
      destruct (Js.truthy (address st)); reflexivity. }
  repeat split; rewrite ?Hrow in *;
    try (destruct (isSignedIn state), connected;
         try destruct (Js.truthy (address state));
         simpl in *; intuition (try discriminate; try congruence; auto);
         fail).
  - intros faults cookie prev. rewrite Hrow.
    destruct (check_session_mirrors_route_fields faults cookie prev)
      as [(a & Hs & Ha)|Hs]; rewrite Hs; [rewrite Ha; discriminate|].
    destruct connected; discriminate.
  - unfold showsProtectedContent. rewrite !andb_true_iff.
    intros [[[Hs Ha] _] _]. rewrite Hs.
    apply truthy_truthyString in Ha as [a ->]. now exists a.
  - unfold statusNotification in H.
    destruct (Js.truthy (error state)); [discriminate|].
    destruct (isSignedIn state); [reflexivity|].
    destruct connected; discriminate.
  - unfold statusNotification in H.
    destruct (Js.truthy (error state)); [discriminate | reflexivity].
Qed.

Lemma page_action_row_witness :
  exists a,
    actionArea true
      (checkSession
         (Resolves (SessionRoute.GET IronSession.noFaults
                      Scenario.authenticated)) initialState)
    = [SignedInPill a false].
Proof.
  refine (proj1 (proj2 (proj2 (proj2 (proj2 (proj2 (proj2
    (page_action_row true
       (checkSession
          (Resolves (SessionRoute.GET IronSession.noFaults
                       Scenario.authenticated)) initialState)))))))) _).
  reflexivity.
Defined.

End Page.

(** ** What the verifier is asked *)

Section VerifierBinding.

Import Siwe IronSession VerifyRoute.

Context `{api : Viem.SiweApi}.

(** The verify route logs in only on the verifier's word, and asks it the
    right question: a success means the verifier returned true for the
    request's own message and signature, with the nonce stored in the
    session as expected nonce and the request's Host header as expected
    domain, on the client chosen for the message's chainId; and the identity
    answered is the parsed message's.  If the verifier returns anything else
    for those parameters, the answer is a failure that keeps the cookie. *)
Theorem verify_binds_nonce_and_host (io : Faults) (clock : Clock)
    (request : NextRequest) (cookie : SiweSessionData)
    (message signature n d : string) (m : Viem.SiweMessage) :
  wellShaped request message signature ->
  nonce cookie = Some n ->
  host request = Some d ->
  Viem.parseSiweMessage message = Returns m ->
  let asked :=
    Viem.verifySiweMessage (getPublicClientForChain (Viem.chainId m))
      {| Viem.message := message; Viem.signature := signature;
         Viem.expectedDomain := d; Viem.expectedNonce := n;
         Viem.time := verifyTime clock |} in
  (forall a c t cookie',
     POST io clock request cookie = (Success a c t, cookie') ->
     asked = Returns true /\ a = Viem.address m /\ c = Viem.chainId m)
  /\ (asked <> Returns true ->
      exists status error,
        POST io clock request cookie = (Failure status error, cookie)).
Proof.
  intros Hshape Hn Hh Hp. cbv zeta.
  assert (Hsucc : forall a c t cookie',
            POST io clock request cookie = (Success a c t, cookie') ->
            Viem.verifySiweMessage (getPublicClientForChain (Viem.chainId m))
              {| Viem.message := message; Viem.signature := signature;
                 Viem.expectedDomain := d; Viem.expectedNonce := n;
                 Viem.time := verifyTime clock |} = Returns true
            /\ a = Viem.address m /\ c = Viem.chainId m).
  { intros a c t cookie' Hok.
    destruct (POST_success_inv _ _ _ _ _ _ _ _ Hok)
      as (message' & signature' & n' & d' & m' & Hshape' & _ & _ & Hn' & _
          & Hp' & Hh' & _ & Hv & -> & -> & _).
    destruct (wellShaped_unique _ _ _ _ _ Hshape Hshape') as [<- <-].
    rewrite Hn in Hn'. injection Hn' as <-.
    rewrite Hh in Hh'. injection Hh' as <-.
    rewrite Hp in Hp'. injection Hp' as <-.
    now repeat split. }
  split; [exact Hsucc|].
  intros Hno.
  destruct (POST io clock request cookie) as [r cookie'] eqn:HP.
  destruct r as [a c t|status error].
  - exfalso. apply Hno. now apply (Hsucc a c t cookie').
  - exists status, error.
    pose proof (POST_failure_keeps io clock request cookie status error) as Hk.
    rewrite HP in Hk. simpl in Hk. now rewrite Hk.
Qed.

End VerifierBinding.

Section VerifierBindingScenario.

Import Siwe IronSession VerifyRoute.

Lemma verify_binds_nonce_and_host_witness :
  exists status error,
    POST (api := Scenario.api) noFaults (Scenario.at_ (Scenario.T + 1))
      (Scenario.request "evil.example") Scenario.challenged
    = (Failure status error, Scenario.challenged).
Proof.
  refine (proj2
    (verify_binds_nonce_and_host (api := Scenario.api) noFaults
       (Scenario.at_ (Scenario.T + 1)) (Scenario.request "evil.example")
       Scenario.challenged Scenario.text
       (Scenario.signed Scenario.signer Scenario.text) "n1" "evil.example"
       Scenario.parsed _ _ _ _) _); try reflexivity.
  - eexists. split; [reflexivity|]. repeat split; discriminate.
  - vm_compute. discriminate.
Defined.

End VerifierBindingScenario.
